(** * Resume-Screener: the scoring pipeline of [backend/parser.py],
      [backend/matcher.py] and [backend/main.py]

    Conventions of the embedding.

    - A Python [str] is a [string] that holds its UTF-8 encoding. Comparing,
      sorting, concatenating and testing for an ASCII suffix are done on the
      encoding; code that looks at characters ([str.lower], the classes [\d]
      and [\s] of regular expressions, [float]) works on the code points
      [Utf8.decode] yields. On ASCII the character properties are given
      here; beyond ASCII they are those of the Unicode character database,
      the parameter [ucd].
    - A Python [float] is an IEEE 754 binary64 number, a [spec_float] with
      precision 53 and maximal exponent 1024; arithmetic is the correctly
      rounded arithmetic of [SpecFloat].
    - A Python [set] of strings is a [gset string]; [sorted(list(s))] sorts
      the elements of the set, whatever the order the set yields them in.
    - A [dict] with fixed keys that a function builds and returns is a
      record; a [dict] received as an argument is a [gmap]; so is a module
      of a library, by the names of its attributes.
    - A raised exception is the [Raise] case of [result]; text written by
      [print] is collected by the writer [io]. *)

From Stdlib Require Import ZArith Strings.String Strings.Ascii SpecFloat.
From stdpp Require Import gmap strings list sorting pretty.

Set Warnings "-clear-no-such-hyp".

(** ** Python floats *)

Module PyFloat.

Definition prec : Z := 53.
Definition emax : Z := 1024.

Abbreviation float := spec_float.

Definition add : float -> float -> float := SFadd prec emax.
Definition mul : float -> float -> float := SFmul prec emax.
Definition ltb : float -> float -> bool := SFltb.
Definition leb : float -> float -> bool := SFleb.

(** The binary64 number nearest to [n / d] (ties to even): the value of a
    decimal literal with numerator [n] and denominator [d], and of the true
    division [n / d] of two non-negative integers. *)
Definition of_ratio (n : N) (d : positive) : float :=
  match n with
  | N0 => S754_zero false
  | Npos p =>
      let '(q, e, l) := SFdiv_core_binary prec emax (Zpos p) 0 (Zpos d) 0 in
      binary_round_aux prec emax false q e l
  end.

Definition of_N (n : N) : float := of_ratio n 1.

(** The float of an integer. *)
Definition of_Z (z : Z) : float :=
  match z with
  | Z0 => S754_zero false
  | Zpos p => of_ratio (Npos p) 1
  | Zneg p => SFopp (of_ratio (Npos p) 1)
  end.

Definition zero : float := S754_zero false.
Definition one : float := Eval vm_compute in of_N 1.

(** Zero, a finite number or the infinity, with the sign bit clear. *)
Definition positive_signed (x : float) : bool :=
  match x with
  | S754_zero false | S754_infinity false | S754_finite false _ _ => true
  | _ => false
  end.

End PyFloat.

Abbreviation float := spec_float.

(** ** Exceptions, results and printed output *)

Inductive exn :=
  | HTTPException (status_code : Z) (detail : string)
  | KeyError (key : string)
  | AttributeError (msg : string)
  | ValueError (msg : string)
  | ZeroDivisionError
  | Exception (msg : string).

Inductive result (A : Type) :=
  | Ok (a : A)
  | Raise (e : exn).
Arguments Ok {A} a.
Arguments Raise {A} e.

Global Instance result_ret : MRet result := fun A a => Ok a.
Global Instance result_fmap : FMap result := fun A B f r =>
  match r with
  | Ok a => Ok (f a)
  | Raise e => Raise e
  end.
Global Instance result_bind : MBind result := fun A B k r =>
  match r with
  | Ok a => k a
  | Raise e => Raise e
  end.

(** [str(e)] of an exception, as the f-strings of the program print it. *)
Definition str_exn (e : exn) : string :=
  match e with
  | HTTPException c d => pretty c +:+ ": " +:+ d
  | KeyError k => "'" +:+ k +:+ "'"
  | AttributeError m => m
  | ValueError m => m
  | ZeroDivisionError => "division by zero"
  | Exception m => m
  end.

(** A value together with the lines [print] wrote while computing it. *)
Definition io (A : Type) : Type := A * list string.

Definition ret {A} (a : A) : io A := (a, []).
Definition print {A} (line : string) (a : A) : io A := (a, [line]).
Definition io_bind {A B} (m : io A) (k : A -> io B) : io B :=
  let '(a, out1) := m in
  let '(b, out2) := k a in
  (b, out1 ++ out2).

(** ** Formatting a float with [:.Nf] *)

Module Format.

(** The integer nearest to [num / den], ties to even ([den > 0]). *)
Definition round_half_even (num den : Z) : Z :=
  let q := (num / den)%Z in
  let r := (num mod den)%Z in
  match (2 * r ?= den)%Z with
  | Lt => q
  | Gt => (q + 1)%Z
  | Eq => if Z.even q then q else (q + 1)%Z
  end.

(** [|x| * 10^p] rounded to an integer, for the finite float [m * 2^e]. *)
Definition scaled (p : nat) (m : positive) (e : Z) : Z :=
  let n := (Zpos m * 10 ^ Z.of_nat p)%Z in
  match e with
  | Zneg k => round_half_even n (2 ^ Zpos k)
  | _ => (n * 2 ^ e)%Z
  end.

Definition zfill (width : nat) (s : string) : string :=
  match width - String.length s with
  | O => s
  | S k => String.concat "" (replicate (S k) "0") +:+ s
  end.

(** The digits of the scaled integer [n] with [p] decimals. *)
Definition fixed (p : nat) (n : Z) : string :=
  let w := (10 ^ Z.of_nat p)%Z in
  match p with
  | O => pretty n
  | S _ => pretty (n / w)%Z +:+ "." +:+ zfill p (pretty (n mod w)%Z)
  end.

Definition sign (s : bool) : string := if s then "-" else "".

(** [format(x, '.{p}f')]. *)
Definition format_f (p : nat) (x : float) : string :=
  match x with
  | S754_nan => "nan"
  | S754_infinity s => sign s +:+ "inf"
  | S754_zero s => sign s +:+ fixed p 0
  | S754_finite s m e => sign s +:+ fixed p (scaled p m e)
  end.

End Format.

(** ** Strings, [sorted] and true division *)

(** [sorted(l)] on a list of strings: ascending in the order of [str]. *)
Definition sorted (l : list string) : list string := merge_sort String.le l.

(** Strictly below in the order of [str]. *)
Definition str_lt (s1 s2 : string) : Prop := String.le s1 s2 ∧ s1 ≠ s2.

(** [a / b] on two non-negative integers. *)
Definition truediv (a b : nat) : result float :=
  match b with
  | O => Raise ZeroDivisionError
  | S _ => Ok (PyFloat.of_ratio (N.of_nat a) (Pos.of_nat b))
  end.

(** [d[k]] on a dictionary. *)
Definition getitem {V} (d : gmap string V) (k : string) : result V :=
  match d !! k with
  | Some v => Ok v
  | None => Raise (KeyError k)
  end.

(** [module.name] on a module of a library. *)
Definition getattr {V} (module : string) (attributes : gmap string V)
    (name : string) : result V :=
  match attributes !! name with
  | Some v => Ok v
  | None =>
      Raise (AttributeError
               ("module '" +:+ module +:+ "' has no attribute '" +:+ name +:+ "'"))
  end.

(** ** backend/matcher.py *)

Module Matcher.

Record SkillCoverage := {
  matched_skills : list string;
  missing_skills : list string;
  coverage_percentage : float
}.

Record ScoreData := {
  final_score : float;
  explanation : string
}.

Section Similarity.
(** The sentence-embedding library: [model.encode(text,
    convert_to_tensor=True)], and [util.cos_sim(e1, e2).item()]; either
    may raise. *)
Context {SentenceTransformer embedding : Type}.
Variable encode : SentenceTransformer -> string -> result embedding.
Variable cos_sim : embedding -> embedding -> result float.

Definition calculate_semantic_similarity
    (model : option SentenceTransformer) (text1 text2 : string) : io float :=
  match model with
  | None => print "Model is not loaded. Returning 0.0" PyFloat.zero
  | Some m =>
      match (embedding1 ← encode m text1;
             embedding2 ← encode m text2;
             cos_sim embedding1 embedding2) with
      | Ok similarity => ret similarity
      | Raise e =>
          print ("Error calculating similarity: " +:+ str_exn e) PyFloat.zero
      end
  end.
End Similarity.

Definition check_skill_coverage (resume_skills jd_skills : list string)
    : result SkillCoverage :=
  match jd_skills with
  | [] =>
      Ok {| matched_skills := [];
            missing_skills := [];
            coverage_percentage := PyFloat.one |}
  | _ :: _ =>
      let set_resume_skills : gset string := list_to_set resume_skills in
      let set_jd_skills : gset string := list_to_set jd_skills in
      let matched := sorted (elements (set_resume_skills ∩ set_jd_skills)) in
      let missing := sorted (elements (set_jd_skills ∖ set_resume_skills)) in
      coverage ← truediv (length matched) (size set_jd_skills);
      Ok {| matched_skills := matched;
            missing_skills := missing;
            coverage_percentage := coverage |}
  end.

Definition default_weights : gmap string float :=
  {[ "semantic" := PyFloat.of_ratio 6 10; "skill" := PyFloat.of_ratio 4 10 ]}.

Definition calculate_final_score (semantic_score skill_coverage : float)
    (weights : option (gmap string float)) : result ScoreData :=
  let weights := default default_weights weights in
  w_semantic ← getitem weights "semantic";
  w_skill ← getitem weights "skill";
  let weighted_score :=
    PyFloat.add (PyFloat.mul w_semantic semantic_score)
                (PyFloat.mul w_skill skill_coverage) in
  let explanation :=
    "Score based on "
    +:+ Format.format_f 0 (PyFloat.mul w_semantic (PyFloat.of_N 100))
    +:+ "% semantic similarity ("
    +:+ Format.format_f 2 semantic_score
    +:+ ") and "
    +:+ Format.format_f 0 (PyFloat.mul w_skill (PyFloat.of_N 100))
    +:+ "% skill coverage ("
    +:+ Format.format_f 2 skill_coverage
    +:+ ")." in
  Ok {| final_score := weighted_score; explanation := explanation |}.

End Matcher.

(** ** Code points *)

(** The Unicode character database beyond ASCII: the decimal digit a code
    point stands for, if any ([Py_UNICODE_TODECIMAL]); whether it is white
    space ([Py_UNICODE_ISSPACE]); and its lower-case form, one to three code
    points, which for the capital sigma depends on the code points before
    it (nearest first) and after it. *)
Record unicode := {
  decimal : N -> option N;
  whitespace : N -> bool;
  lower_full : list N -> N -> list N -> list N
}.

Module Utf8.

Definition is_cont (b : N) : bool := (128 <=? b)%N && (b <? 192)%N.

(** A lead byte: the number of bytes that follow and the bits it carries. *)
Definition lead (b : N) : option (nat * N) :=
  if (192 <=? b)%N && (b <? 224)%N then Some (1%nat, (b - 192)%N)
  else if (224 <=? b)%N && (b <? 240)%N then Some (2%nat, (b - 224)%N)
  else if (240 <=? b)%N && (b <? 248)%N then Some (3%nat, (b - 240)%N)
  else None.

(** The code points of an encoding. [pending] is the sequence being read:
    the number of bytes it still needs and the bits read. A byte that fits no
    sequence is kept as the code point of its value; the encoding of a [str]
    has no such byte. *)
Fixpoint decode_from (pending : option (nat * N)) (s : string) : list N :=
  match s with
  | EmptyString =>
      match pending with
      | Some (_, acc) => [acc]
      | None => []
      end
  | String a s' =>
      let b := N_of_ascii a in
      let fresh :=
        match lead b with
        | Some st => decode_from (Some st) s'
        | None => b :: decode_from None s'
        end in
      match pending with
      | None => fresh
      | Some (need, acc) =>
          if is_cont b then
            let acc' := (acc * 64 + (b - 128))%N in
            match need with
            | O | S O => acc' :: decode_from None s'
            | S k => decode_from (Some (k, acc')) s'
            end
          else acc :: fresh
      end
  end.

Definition decode (s : string) : list N := decode_from None s.

Definition byte (n : N) : ascii := ascii_of_N n.

Definition encode_point (c : N) : list ascii :=
  (if c <? 128 then [byte c]
   else if c <? 2048 then [byte (192 + c / 64); byte (128 + c mod 64)]
   else if c <? 65536 then
     [byte (224 + c / 4096); byte (128 + (c / 64) mod 64); byte (128 + c mod 64)]
   else
     [byte (240 + (c / 262144) mod 8); byte (128 + (c / 4096) mod 64);
      byte (128 + (c / 64) mod 64); byte (128 + c mod 64)])%N.

Definition encode (l : list N) : string :=
  string_of_list_ascii (flat_map encode_point l).

End Utf8.

(** ** Regular expressions of the program

    The two patterns of [extract_years_of_experience] are sequences of single
    character sets, each with a greedy quantifier, the first three forming
    the capture group. [match_here] is the backtracking matcher of [re]:
    a quantifier first takes as many characters as it can and gives them back
    one by one while the rest of the pattern fails. Subjects and captures are
    lists of code points. *)

Module Re.

Inductive cset :=
  | Digit            (* \d *)
  | Space            (* \s *)
  | Char (c : ascii).

Inductive quant :=
  | One              (* x *)
  | Opt              (* x? *)
  | Star             (* x* *)
  | Plus.            (* x+ *)

Definition atom : Type := cset * quant.

(** [(group)tail] *)
Record pattern := { group : list atom; tail : list atom }.

Section Classes.
Variable ucd : unicode.

(** The decimal digit of a code point: 0 to 9 on ASCII, the database
    beyond. *)
Definition digit_value (c : N) : option N :=
  if (c <? 128)%N then
    if (48 <=? c)%N && (c <=? 57)%N then Some (c - 48)%N else None
  else decimal ucd c.

(** [\d] on a [str] pattern: the code points with a decimal digit. *)
Definition is_digit (c : N) : bool :=
  match digit_value c with
  | Some _ => true
  | None => false
  end.

(** [\s] on a [str] pattern. On ASCII: tab, line feed, vertical tab, form
    feed, carriage return, the four separators 28 to 31, and the space. *)
Definition is_space (c : N) : bool :=
  if (c <? 128)%N then
    ((9 <=? c)%N && (c <=? 13)%N) || ((28 <=? c)%N && (c <=? 32)%N)
  else whitespace ucd c.

Definition mem (c : N) (cs : cset) : bool :=
  match cs with
  | Digit => is_digit c
  | Space => is_space c
  | Char a => (c =? N_of_ascii a)%N
  end.

Section Backtracking.
Context {R : Type}.

(** A greedy [x*] followed by [next]: the longest run first. *)
Fixpoint match_star (cs : cset) (next : list N -> option R) (s : list N)
    : option R :=
  match s with
  | c :: s' =>
      if mem c cs then
        match match_star cs next s' with
        | Some r => Some r
        | None => next s
        end
      else next s
  | [] => next s
  end.

Fixpoint match_here (atoms : list atom) (s : list N)
    (k : list N -> option R) {struct atoms} : option R :=
  match atoms with
  | [] => k s
  | (cs, q) :: atoms' =>
      let next := fun s' => match_here atoms' s' k in
      match q, s with
      | One, c :: s' => if mem c cs then next s' else None
      | One, [] => None
      | Opt, c :: s' =>
          if mem c cs then
            match next s' with
            | Some r => Some r
            | None => next s
            end
          else next s
      | Opt, [] => next s
      | Star, _ => match_star cs next s
      | Plus, c :: s' => if mem c cs then match_star cs next s' else None
      | Plus, [] => None
      end
  end.
End Backtracking.

(** A match of [p] at the start of [s]: the text of the group and the
    number of characters of the whole match. *)
Definition match_at (p : pattern) (s : list N) : option (list N * nat) :=
  match_here (group p) s (fun s1 =>
    match_here (tail p) s1 (fun s2 =>
      Some (take (length s - length s1) s, length s - length s2))).

(** [re.findall(p, s)] for a pattern with one group: the group of every
    match, leftmost first, matches not overlapping. [skip] characters of the
    last match are still to be passed over. The patterns of the program
    match no empty string. *)
Fixpoint findall_from (p : pattern) (s : list N) (skip : nat) : list (list N) :=
  match s with
  | [] => []
  | _ :: s' =>
      match skip with
      | S n => findall_from p s' n
      | O =>
          match match_at p s with
          | Some (g, len) => g :: findall_from p s' (len - 1)
          | None => findall_from p s' 0
          end
      end
  end.

Definition findall (p : pattern) (s : list N) : list (list N) :=
  findall_from p s 0.

(** The strings an atom and a sequence of atoms stand for. *)
Definition all_in (cs : cset) (w : list N) : bool :=
  forallb (fun c => mem c cs) w.

Definition atom_lang (a : atom) (w : list N) : Prop :=
  match a.2 with
  | One => ∃ c, w = [c] ∧ mem c a.1 = true
  | Opt => w = [] ∨ ∃ c, w = [c] ∧ mem c a.1 = true
  | Star => all_in a.1 w = true
  | Plus => w ≠ [] ∧ all_in a.1 w = true
  end.

Fixpoint atoms_lang (atoms : list atom) (w : list N) : Prop :=
  match atoms with
  | [] => w = []
  | a :: atoms' =>
      ∃ w1 w2, w = w1 ++ w2 ∧ atom_lang a w1 ∧ atoms_lang atoms' w2
  end.

(** Some part of the text is a string of the pattern. *)
Definition occurs (p : pattern) (text : list N) : Prop :=
  ∃ pre g t post, text = pre ++ g ++ t ++ post ∧
    atoms_lang (group p) g ∧ atoms_lang (tail p) t.

End Classes.

End Re.

(** ** Built-ins on strings and floats *)

Definition lower_ascii (c : N) : N :=
  if (65 <=? c)%N && (c <=? 90)%N then (c + 32)%N else c.

(** The lower-case form of the code points [s] that follow [before]
    (nearest first). *)
Fixpoint lower_from (ucd : unicode) (before s : list N) : list N :=
  match s with
  | [] => []
  | c :: rest =>
      (if (c <? 128)%N then [lower_ascii c] else lower_full ucd before c rest)
      ++ lower_from ucd (c :: before) rest
  end.

(** [s.lower()] *)
Definition lower (ucd : unicode) (s : string) : string :=
  Utf8.encode (lower_from ucd [] (Utf8.decode s)).

(** [s.endswith(suffix)] *)
Definition endswith (s suffix : string) : bool :=
  let n := String.length s in
  let k := String.length suffix in
  (k <=? n) && String.eqb (substring (n - k) k s) suffix.

(** The value of a string of decimal digits, [None] when another character
    occurs. *)
Fixpoint digits_value (ucd : unicode) (acc : N) (s : list N) : option N :=
  match s with
  | [] => Some acc
  | c :: s' =>
      match Re.digit_value ucd c with
      | Some d => digits_value ucd (10 * acc + d) s'
      | None => None
      end
  end.

(** The text before the first ["."] and, when there is one, the text after. *)
Fixpoint split_point (s : list N) : list N * option (list N) :=
  match s with
  | [] => ([], None)
  | c :: s' =>
      if (c =? 46)%N then ([], Some s')
      else let '(i, f) := split_point s' in (c :: i, f)
  end.

(** [float(s)] on an unsigned decimal literal: digits, optionally a point,
    optionally digits, with a digit on one side at least; a digit is any
    code point with a decimal digit. These are the strings the capture group
    yields; on any other string a [ValueError] is raised here (Python reads
    further forms: signs, exponents, blanks). *)
Definition py_float (ucd : unicode) (s : list N) : result float :=
  let '(i, f) := split_point s in
  let f := default [] f in
  match digits_value ucd 0 (i ++ f) with
  | Some n =>
      if (length (i ++ f) =? 0)%nat
      then Raise (ValueError ("could not convert string to float: '"
                              +:+ Utf8.encode s +:+ "'"))
      else Ok (PyFloat.of_ratio n (Z.to_pos (10 ^ Z.of_nat (length f))))
  | None => Raise (ValueError ("could not convert string to float: '"
                               +:+ Utf8.encode s +:+ "'"))
  end.

(** [max(l)]: the first of the greatest elements; [ValueError] on []. *)
Definition py_max (l : list float) : result float :=
  match l with
  | [] => Raise (ValueError "max() arg is an empty sequence")
  | x :: l' => Ok (fold_left (fun m y => if PyFloat.ltb m y then y else m) l' x)
  end.

(** ** backend/parser.py *)

Module Parser.

Definition SKILL_DATABASE : list string :=
  [ "python"; "java"; "c++"; "c#"; "javascript"; "typescript"; "react"; "next.js";
    "angular"; "vue.js"; "node.js"; "express.js"; "django"; "flask"; "fastapi";
    "sql"; "mysql"; "postgresql"; "mongodb"; "redis"; "docker"; "kubernetes"; "aws";
    "azure"; "gcp"; "terraform"; "ansible"; "git"; "jira"; "scrum"; "agile";
    "machine learning"; "deep learning"; "pytorch"; "tensorflow"; "scikit-learn";
    "pandas"; "numpy"; "data analysis"; "data visualization"; "nlp"; "llm";
    "natural language processing"; "power bi"; "tableau"; "figma"; "adobe xd";
    "project management"; "product management"; "ui/ux design"; "team leadership" ].

(** The result of [parse_resume]: the dictionary with the single key
    ["error"], or the one with the three fields. *)
Inductive ResumeData :=
  | ParseError (error : string)
  | Parsed (raw_text : string) (skills : list string) (experience_years : float).

(** *** The fuzzy-matching library *)

(** A scorer of [rapidfuzz.fuzz]: the score, from 0 to 100, of a choice
    against the query. *)
Definition scorer : Type := string -> string -> float.

Definition match_ : Type := string * float * nat.
Definition score_of (m : match_) : float := (m.1).2.

Fixpoint insert_by_score (m : match_) (l : list match_) : list match_ :=
  match l with
  | [] => [m]
  | m' :: l' =>
      if PyFloat.leb (score_of m') (score_of m) then m :: l
      else m' :: insert_by_score m l'
  end.

(** [process.extract(query, choices, scorer=f, limit=None, score_cutoff=c)]:
    every choice whose score reaches the cutoff, with its score and index,
    best score first. *)
Definition process_extract (f : scorer) (query : string) (choices : list string)
    (score_cutoff : Z) : list match_ :=
  foldr insert_by_score []
    (filter (fun m => PyFloat.leb (PyFloat.of_Z score_cutoff) (score_of m) = true)
            (imap (fun i choice => (choice, f query choice, i)) choices)).

(** *** Experience *)

(** The group of both patterns, atom by atom: ( \d+ \.? \d* ) *)
Definition number_group : list Re.atom :=
  [ (Re.Digit, Re.Plus); (Re.Char ".", Re.Opt); (Re.Digit, Re.Star) ].

(** The pattern of "5 years", atom by atom:
    ( \d+ \.? \d* ) \s* \+? \s* y e? a? r s? *)
Definition pattern_years : Re.pattern :=
  {| Re.group := number_group;
     Re.tail := [ (Re.Space, Re.Star); (Re.Char "+", Re.Opt); (Re.Space, Re.Star);
                  (Re.Char "y", Re.One); (Re.Char "e", Re.Opt); (Re.Char "a", Re.Opt);
                  (Re.Char "r", Re.One); (Re.Char "s", Re.Opt) ] |}.

(** The pattern of "5 yrs", atom by atom:
    ( \d+ \.? \d* ) \s* \+? \s* y r s? *)
Definition pattern_yrs : Re.pattern :=
  {| Re.group := number_group;
     Re.tail := [ (Re.Space, Re.Star); (Re.Char "+", Re.Opt); (Re.Space, Re.Star);
                  (Re.Char "y", Re.One); (Re.Char "r", Re.One); (Re.Char "s", Re.Opt) ] |}.

Definition patterns : list Re.pattern := [ pattern_years; pattern_yrs ].

Section Program.
Variable ucd : unicode.

(** The module [rapidfuzz.fuzz], by the names of its scorers. The library
    names its partial-ratio scorer [partial_ratio]. *)
Variable fuzz : gmap string scorer.

(** [pdfminer.high_level.extract_text] and [docx2txt.process]: the text of
    the file at a path, or an exception. *)
Variable extract_text : string -> result string.
Variable docx2txt_process : string -> result string.

Definition extract_text_from_pdf (file_path : string) : io string :=
  match extract_text file_path with
  | Ok text => ret (lower ucd text)
  | Raise e =>
      print ("Error reading PDF " +:+ file_path +:+ ": " +:+ str_exn e) ""
  end.

Definition extract_text_from_docx (file_path : string) : io string :=
  match docx2txt_process file_path with
  | Ok text => ret (lower ucd text)
  | Raise e =>
      print ("Error reading DOCX " +:+ file_path +:+ ": " +:+ str_exn e) ""
  end.

(** The arguments of [process.extract] are evaluated before the call:
    [fuzz.PARTIAL_RATIO] is looked up in the module first. *)
Definition extract_skills (text : string) (skill_list : list string)
    (threshold : Z) : result (list string) :=
  PARTIAL_RATIO ← getattr "rapidfuzz.fuzz" fuzz "PARTIAL_RATIO";
  let matches := process_extract PARTIAL_RATIO text skill_list threshold in
  let found_skills : gset string :=
    fold_left (fun found m => {[ (m.1).1 ]} ∪ found) matches ∅ in
  Ok (sorted (elements found_skills)).

(** The inner loop: append the value of every match, skip those [float]
    rejects. *)
Definition append_years (found_years : list float) (matches : list (list N))
    : list float :=
  fold_left (fun found m =>
               match py_float ucd m with
               | Ok y => found ++ [y]
               | Raise _ => found
               end) matches found_years.

(** [found_years] after the loops, on the code points of the text. *)
Definition found_years_of (text : list N) : list float :=
  fold_left (fun found pattern => append_years found (Re.findall ucd pattern text))
            patterns [PyFloat.zero].

Definition extract_years_of_experience (text : string) : result float :=
  py_max (found_years_of (Utf8.decode text)).

(** The part of [parse_resume] after the text is read. *)
Definition parse_text (text : string) : result ResumeData :=
  if String.eqb text "" then Ok (ParseError "Could not read text from file")
  else
    skills ← extract_skills text SKILL_DATABASE 85;
    experience ← extract_years_of_experience text;
    Ok (Parsed text skills experience).

Definition parse_resume (file_path : string) : io (result ResumeData) :=
  if endswith file_path ".pdf" then
    io_bind (extract_text_from_pdf file_path) (fun text => ret (parse_text text))
  else if endswith file_path ".docx" then
    io_bind (extract_text_from_docx file_path) (fun text => ret (parse_text text))
  else ret (Ok (ParseError "Unsupported file type")).

Definition parse_skills_from_jd (jd_text : string) : result (list string) :=
  let jd_text_lower := lower ucd jd_text in
  extract_skills jd_text_lower SKILL_DATABASE 90.

End Program.

End Parser.

(** ** backend/main.py *)

Module Main.

Record UploadFile := { filename : string; content : string }.

Record RankResult := {
  rr_filename : string;
  resume_skills : list string;
  experience_years : float;
  jd_skills : list string;
  semantic_similarity : float;
  skill_coverage : Matcher.SkillCoverage;
  final_score : float;
  explanation : string
}.

Section Endpoint.
Context {SentenceTransformer embedding : Type}.
Variable encode : SentenceTransformer -> string -> result embedding.
Variable cos_sim : embedding -> embedding -> result float.
Variable ucd : unicode.
Variable fuzz : gmap string Parser.scorer.
Variable extract_text : string -> result string.
Variable docx2txt_process : string -> result string.

(** Writing the upload to a [NamedTemporaryFile] whose suffix is the
    extension of the uploaded name: the path of the file, or the
    exception of the write. *)
Variable save_temporary_file : UploadFile -> result string.

(** The body of the second [try]. Raising [HTTPException] is [Raise]. *)
Definition score_resume (MODEL : option SentenceTransformer)
    (job_description : string) (resume_file : UploadFile)
    (temp_file_path : string) : io (result RankResult) :=
  io_bind (Parser.parse_resume ucd fuzz extract_text docx2txt_process
             temp_file_path) (fun resume_data =>
  match resume_data with
  | Raise e => ret (Raise e)
  | Ok (Parser.ParseError error) =>
      ret (Raise (HTTPException 400 ("Error parsing resume: " +:+ error)))
  | Ok (Parser.Parsed raw_text skills experience) =>
      match Parser.parse_skills_from_jd ucd fuzz job_description with
      | Raise e => ret (Raise e)
      | Ok jd_skills =>
          io_bind (Matcher.calculate_semantic_similarity encode cos_sim MODEL
                     raw_text job_description) (fun semantic_score =>
          ret (skill_coverage_data ← Matcher.check_skill_coverage skills jd_skills;
               score_data ← Matcher.calculate_final_score semantic_score
                              (Matcher.coverage_percentage skill_coverage_data) None;
               Ok {| rr_filename := filename resume_file;
                     resume_skills := skills;
                     experience_years := experience;
                     jd_skills := jd_skills;
                     semantic_similarity := semantic_score;
                     skill_coverage := skill_coverage_data;
                     final_score := Matcher.final_score score_data;
                     explanation := Matcher.explanation score_data |}))
      end
  end).

(** The endpoint [POST /rank]. [MODEL] is the module variable
    [matcher.MODEL]. The result is the response record or the
    [HTTPException] the endpoint raises. Removing the temporary file in
    the [finally] clause changes no returned value and is left out. *)
Definition rank_resume (MODEL : option SentenceTransformer)
    (job_description : string) (resume_file : UploadFile)
    : io (result RankResult) :=
  match MODEL with
  | None =>
      ret (Raise (HTTPException 500
             "ML Model is not loaded. Cannot process request."))
  | Some _ =>
      match save_temporary_file resume_file with
      | Raise e =>
          ret (Raise (HTTPException 500
                 ("Error saving temporary file: " +:+ str_exn e)))
      | Ok temp_file_path =>
          io_bind (score_resume MODEL job_description resume_file
                     temp_file_path) (fun r =>
          match r with
          | Ok response => ret (Ok response)
          | Raise e =>
              ret (Raise (HTTPException 500
                     ("An unexpected error occurred: " +:+ str_exn e)))
          end)
      end
  end.

End Endpoint.

End Main.

(** ** Values used in the statements *)

(** The error record of [parse_resume] for a file without text. *)
Definition no_text : result Parser.ResumeData :=
  Ok (Parser.ParseError "Could not read text from file").

(** The message of the exception for the scorer the program asks for. *)
Definition no_PARTIAL_RATIO : string :=
  "module 'rapidfuzz.fuzz' has no attribute 'PARTIAL_RATIO'".

(** Some code point of the string satisfies the test. *)
Definition has_char (f : N -> bool) (s : string) : bool :=
  existsb f (Utf8.decode s).

(** A concrete deployment for the examples. The model scores every pair of
    texts 0.5; the module of scorers has [partial_ratio], which gives 100 to
    "python", and no other name; the PDF reader yields one line of text; the
    upload is saved under its own name; and the character database knows the
    no-break space and the Arabic-Indic digits, and lowers nothing beyond
    ASCII. *)
Module Deployment.
Definition encode (m : unit) (text : string) : result string := Ok text.
Definition cos_sim (e1 e2 : string) : result float := Ok (PyFloat.of_ratio 1 2).
Definition partial_ratio (text skill : string) : float :=
  if String.eqb skill "python" then PyFloat.of_N 100 else PyFloat.zero.
Definition fuzz : gmap string Parser.scorer :=
  {[ "partial_ratio" := partial_ratio ]}.
Definition ucd : unicode :=
  {| decimal c := if (1632 <=? c)%N && (c <=? 1641)%N then Some (c - 1632)%N
                  else None;
     whitespace c := (c =? 160)%N;
     lower_full _ c _ := [c] |}.
Definition extract_text (path : string) : result string :=
  Ok "Python developer, 5 years".
Definition docx2txt_process (path : string) : result string :=
  Raise (Exception "not a DOCX file").
Definition save_temporary_file (f : Main.UploadFile) : result string :=
  Ok ("/tmp/upload-" +:+ Main.filename f).
Definition resume : Main.UploadFile :=
  {| Main.filename := "resume.pdf"; Main.content := "%PDF-1.4" |}.
Definition rank_resume (MODEL : option unit) (job_description : string)
    (resume_file : Main.UploadFile) : io (result Main.RankResult) :=
  Main.rank_resume encode cos_sim ucd fuzz extract_text docx2txt_process
    save_temporary_file MODEL job_description resume_file.
End Deployment.
(** * Properties *)

(** ** [sorted] *)

Section SortedFacts.
Implicit Types l : list string.

Lemma sorted_Permutation l : sorted l ≡ₚ l.
Proof. apply merge_sort_Permutation. Qed.

Lemma sorted_elem_of l x : x ∈ sorted l ↔ x ∈ l.
Proof. by rewrite sorted_Permutation. Qed.

Lemma sorted_length l : length (sorted l) = length l.
Proof. by rewrite sorted_Permutation. Qed.

Lemma sorted_NoDup l : NoDup l → NoDup (sorted l).
Proof. by rewrite sorted_Permutation. Qed.

Lemma sorted_ascending l : StronglySorted String.le (sorted l).
Proof. apply StronglySorted_merge_sort; apply _. Qed.

(** Without repeated elements the result is strictly ascending. *)
Lemma sorted_strictly_ascending l : NoDup l → StronglySorted str_lt (sorted l).
Proof.
  intros Hnd. apply sorted_NoDup in Hnd.
  pose proof (sorted_ascending l) as Hs.
  induction Hs as [|x l' Hs IH Hall]; [constructor|].
  apply NoDup_cons in Hnd as [Hx Hnd].
  constructor; [by apply IH|].
  apply Forall_forall. intros y Hy. split.
  - by eapply Forall_forall in Hall.
  - intros ->. done.
Qed.

(** The result depends on the elements only, not on their order. *)
Lemma sorted_proper l1 l2 : l1 ≡ₚ l2 → sorted l1 = sorted l2.
Proof.
  intros Hp. apply (StronglySorted_unique String.le).
  - apply sorted_ascending.
  - apply sorted_ascending.
  - by rewrite !sorted_Permutation.
Qed.

End SortedFacts.

(** ** [check_skill_coverage] *)

Section CoverageFacts.
Import Matcher.

Lemma truediv_pos a b : 0 < b →
  truediv a b = Ok (PyFloat.of_ratio (N.of_nat a) (Pos.of_nat b)).
Proof. destruct b; [lia|done]. Qed.

Lemma size_list_to_set_pos (l : list string) :
  l ≠ [] → 0 < size (list_to_set l : gset string).
Proof.
  destruct l as [|x l]; [done|]. intros _.
  assert (size (list_to_set (x :: l) : gset string) ≠ 0); [|lia].
  intros Hz%size_empty_inv. set_solver.
Qed.

(** The result on a non-empty list of required skills, unfolded. *)
Lemma check_skill_coverage_cons resume_skills jd_skills :
  jd_skills ≠ [] →
  check_skill_coverage resume_skills jd_skills =
    let set_resume_skills : gset string := list_to_set resume_skills in
    let set_jd_skills : gset string := list_to_set jd_skills in
    let matched := sorted (elements (set_resume_skills ∩ set_jd_skills)) in
    Ok {| matched_skills := matched;
          missing_skills := sorted (elements (set_jd_skills ∖ set_resume_skills));
          coverage_percentage :=
            PyFloat.of_ratio (N.of_nat (length matched))
                             (Pos.of_nat (size set_jd_skills)) |}.
Proof.
  intros Hne. destruct jd_skills as [|y jd]; [done|].
  unfold check_skill_coverage.
  rewrite truediv_pos; [done|]. by apply size_list_to_set_pos.
Qed.

End CoverageFacts.

(** C3: on a non-empty list of required skills, [matched_skills] holds
    exactly the skills that are both candidate and required and
    [missing_skills] exactly the required skills that are not candidate, both
    strictly ascending (sorted, without repetition); together they make up
    the required skills and they share no element; [coverage_percentage] is
    the float nearest to the ratio of the number of matched skills to the
    number of distinct required skills, which is positive. *)
Theorem check_skill_coverage_nonempty (candidate required : list string) :
  required ≠ [] →
  ∃ r, Matcher.check_skill_coverage candidate required = Ok r ∧
    (∀ x, x ∈ Matcher.matched_skills r ↔ x ∈ candidate ∧ x ∈ required) ∧
    (∀ x, x ∈ Matcher.missing_skills r ↔ x ∈ required ∧ x ∉ candidate) ∧
    StronglySorted str_lt (Matcher.matched_skills r) ∧
    StronglySorted str_lt (Matcher.missing_skills r) ∧
    (∀ x, x ∈ required ↔
          x ∈ Matcher.matched_skills r ∨ x ∈ Matcher.missing_skills r) ∧
    (∀ x, ¬ (x ∈ Matcher.matched_skills r ∧ x ∈ Matcher.missing_skills r)) ∧
    0 < size (list_to_set required : gset string) ∧
    Matcher.coverage_percentage r =
      PyFloat.of_ratio (N.of_nat (length (Matcher.matched_skills r)))
                       (Pos.of_nat (size (list_to_set required : gset string))).
Proof.
  intros Hne. rewrite check_skill_coverage_cons by done. cbv zeta.
  eexists. split; [reflexivity|]. cbn [Matcher.matched_skills
    Matcher.missing_skills Matcher.coverage_percentage].
  assert (Hm : ∀ x, x ∈ sorted (elements
             ((list_to_set candidate : gset string) ∩ list_to_set required))
           ↔ x ∈ candidate ∧ x ∈ required).
  { intros x. rewrite sorted_elem_of, elem_of_elements. set_solver. }
  assert (Hd : ∀ x, x ∈ sorted (elements
             ((list_to_set required : gset string) ∖ list_to_set candidate))
           ↔ x ∈ required ∧ x ∉ candidate).
  { intros x. rewrite sorted_elem_of, elem_of_elements. set_solver. }
  split_and!; try done.
  - apply sorted_strictly_ascending, NoDup_elements.
  - apply sorted_strictly_ascending, NoDup_elements.
  - intros x. rewrite Hm, Hd. destruct (decide (x ∈ candidate)); tauto.
  - intros x. rewrite Hm, Hd. tauto.
  - by apply size_list_to_set_pos.
Qed.

Lemma check_skill_coverage_nonempty_witness :
  ["java"; "aws"; "sql"] ≠ [] ∧
  ∃ r, Matcher.check_skill_coverage ["java"; "python"; "aws"] ["java"; "aws"; "sql"]
       = Ok r ∧
    (∀ x, x ∈ Matcher.matched_skills r ↔
          x ∈ ["java"; "python"; "aws"] ∧ x ∈ ["java"; "aws"; "sql"]) ∧
    (∀ x, x ∈ Matcher.missing_skills r ↔
          x ∈ ["java"; "aws"; "sql"] ∧ x ∉ ["java"; "python"; "aws"]) ∧
    StronglySorted str_lt (Matcher.matched_skills r) ∧
    StronglySorted str_lt (Matcher.missing_skills r) ∧
    (∀ x, x ∈ ["java"; "aws"; "sql"] ↔
          x ∈ Matcher.matched_skills r ∨ x ∈ Matcher.missing_skills r) ∧
    (∀ x, ¬ (x ∈ Matcher.matched_skills r ∧ x ∈ Matcher.missing_skills r)) ∧
    0 < size (list_to_set ["java"; "aws"; "sql"] : gset string) ∧
    Matcher.coverage_percentage r =
      PyFloat.of_ratio (N.of_nat (length (Matcher.matched_skills r)))
        (Pos.of_nat (size (list_to_set ["java"; "aws"; "sql"] : gset string))).
Proof.
  split; [discriminate|].
  apply (check_skill_coverage_nonempty ["java"; "python"; "aws"] ["java"; "aws"; "sql"]).
  discriminate.
Defined.

(** The coverage of the example of the test block: two of three, 0.67. *)
Example check_skill_coverage_example :
  Matcher.check_skill_coverage ["java"; "python"; "aws"] ["java"; "aws"; "sql"] =
  Ok {| Matcher.matched_skills := ["aws"; "java"];
        Matcher.missing_skills := ["sql"];
        Matcher.coverage_percentage := PyFloat.of_ratio 2 3 |}.
Proof. vm_compute. reflexivity. Qed.

(** C4: with no required skill the coverage is 1.0 and both lists are
    empty, whatever the candidate's skills. *)
Theorem check_skill_coverage_empty (candidate : list string) :
  Matcher.check_skill_coverage candidate [] =
  Ok {| Matcher.matched_skills := [];
        Matcher.missing_skills := [];
        Matcher.coverage_percentage := PyFloat.one |}.
Proof. reflexivity. Qed.

(** C9: the result depends on the sets of elements of the two lists only:
    two pairs of lists with the same elements (a permutation, repeated
    entries) give the same matched skills, missing skills and coverage. *)
Theorem check_skill_coverage_same_elements
    (resume1 resume2 jd1 jd2 : list string) :
  (∀ x, x ∈ resume1 ↔ x ∈ resume2) →
  (∀ x, x ∈ jd1 ↔ x ∈ jd2) →
  Matcher.check_skill_coverage resume1 jd1 =
  Matcher.check_skill_coverage resume2 jd2.
Proof.
  intros Hr Hj.
  destruct (decide (jd1 = [])) as [->|Hne1].
  - destruct jd2 as [|y jd2]; [done|].
    exfalso. apply (not_elem_of_nil y), Hj. left.
  - assert (Hne2 : jd2 ≠ []).
    { intros ->. destruct jd1 as [|y jd1]; [done|].
      apply (not_elem_of_nil y), Hj. left. }
    rewrite !check_skill_coverage_cons by done.
    assert (list_to_set resume1 = (list_to_set resume2 : gset string)) as ->
      by set_solver.
    assert (list_to_set jd1 = (list_to_set jd2 : gset string)) as ->
      by set_solver.
    reflexivity.
Qed.

Lemma check_skill_coverage_same_elements_witness :
  (∀ x, x ∈ ["java"; "python"; "java"] ↔ x ∈ ["python"; "java"]) ∧
  (∀ x, x ∈ ["sql"; "java"; "sql"] ↔ x ∈ ["java"; "sql"]) ∧
  Matcher.check_skill_coverage ["java"; "python"; "java"] ["sql"; "java"; "sql"] =
  Matcher.check_skill_coverage ["python"; "java"] ["java"; "sql"].
Proof.
  assert (H1 : ∀ x, x ∈ ["java"; "python"; "java"] ↔ x ∈ ["python"; "java"])
    by set_solver.
  assert (H2 : ∀ x, x ∈ ["sql"; "java"; "sql"] ↔ x ∈ ["java"; "sql"])
    by set_solver.
  split; [exact H1|]. split; [exact H2|].
  exact (check_skill_coverage_same_elements _ _ _ _ H1 H2).
Defined.

(** A repeated required skill does not enlarge the denominator: one of two
    distinct required skills is covered, the ratio is 1/2. *)
Example check_skill_coverage_repeated_required :
  Matcher.check_skill_coverage ["java"] ["sql"; "java"; "sql"; "sql"] =
  Ok {| Matcher.matched_skills := ["java"];
        Matcher.missing_skills := ["sql"];
        Matcher.coverage_percentage := PyFloat.of_ratio 1 2 |}.
Proof. vm_compute. reflexivity. Qed.

(** ** [calculate_final_score] *)

Section ScoreFacts.
Import Matcher.

Lemma default_weights_semantic :
  default_weights !! "semantic" = Some (PyFloat.of_ratio 6 10).
Proof. vm_compute. reflexivity. Qed.

Lemma default_weights_skill :
  default_weights !! "skill" = Some (PyFloat.of_ratio 4 10).
Proof. vm_compute. reflexivity. Qed.

(** The result for weights that hold both keys. *)
Lemma calculate_final_score_weights s c (weights : gmap string float) ws wk :
  weights !! "semantic" = Some ws →
  weights !! "skill" = Some wk →
  calculate_final_score s c (Some weights) =
  Ok {| final_score := PyFloat.add (PyFloat.mul ws s) (PyFloat.mul wk c);
        explanation :=
          "Score based on "
          +:+ Format.format_f 0 (PyFloat.mul ws (PyFloat.of_N 100))
          +:+ "% semantic similarity (" +:+ Format.format_f 2 s
          +:+ ") and "
          +:+ Format.format_f 0 (PyFloat.mul wk (PyFloat.of_N 100))
          +:+ "% skill coverage (" +:+ Format.format_f 2 c +:+ ")." |}.
Proof.
  intros Hs Hk. unfold calculate_final_score, getitem.
  change (default default_weights (Some weights)) with weights.
  rewrite Hs. cbn [mbind result_bind]. rewrite Hk. reflexivity.
Qed.

(** The result for the default weights. *)
Lemma calculate_final_score_None s c :
  calculate_final_score s c None =
  calculate_final_score s c (Some default_weights).
Proof. reflexivity. Qed.

(** A missing weight raises [KeyError]. *)
Lemma calculate_final_score_KeyError s c (weights : gmap string float) :
  weights !! "semantic" = None →
  calculate_final_score s c (Some weights) = Raise (KeyError "semantic").
Proof.
  intros Hs. unfold calculate_final_score, getitem.
  change (default default_weights (Some weights)) with weights.
  rewrite Hs. reflexivity.
Qed.

(** The two default weights as percentages. *)
Lemma default_percentages :
  Format.format_f 0 (PyFloat.mul (PyFloat.of_ratio 6 10) (PyFloat.of_N 100)) = "60" ∧
  Format.format_f 0 (PyFloat.mul (PyFloat.of_ratio 4 10) (PyFloat.of_N 100)) = "40".
Proof. split; vm_compute; reflexivity. Qed.

End ScoreFacts.

(** The integer that [round_half_even] yields is a nearest one. *)
Lemma round_half_even_nearest (num den : Z) :
  (0 < den)%Z →
  (Z.abs (2 * (den * Format.round_half_even num den - num)) <= den)%Z.
Proof.
  intros Hd. unfold Format.round_half_even. cbv zeta.
  pose proof (Z.div_mod num den ltac:(lia)) as Hdm.
  pose proof (Z.mod_pos_bound num den Hd) as Hb.
  set (q := (num `div` den)%Z) in *. set (r := (num `mod` den)%Z) in *.
  clearbody q r.
  assert (Hq : (den * (q + 1) = den * q + den)%Z) by lia.
  destruct (Z.compare_spec (2 * r) den) as [Hc|Hc|Hc].
  - destruct (Z.even q); lia.
  - lia.
  - lia.
Qed.

(** C5: with the default weights the final score is the float expression
    [0.6 * s + 0.4 * c], for every pair of floats; nothing is clamped or
    normalised. *)
Theorem calculate_final_score_linear (s c : float) :
  ∃ r, Matcher.calculate_final_score s c None = Ok r ∧
       Matcher.final_score r =
         PyFloat.add (PyFloat.mul (PyFloat.of_ratio 6 10) s)
                     (PyFloat.mul (PyFloat.of_ratio 4 10) c).
Proof.
  rewrite calculate_final_score_None.
  rewrite (calculate_final_score_weights s c _ _ _
             default_weights_semantic default_weights_skill).
  eexists. split; reflexivity.
Qed.

(** Scores outside [0, 1] pass through: 2.0 and 2.0 give 2.0, and -1.0 with
    0.0 gives -0.6. *)
Example calculate_final_score_unclamped :
  Matcher.final_score <$> Matcher.calculate_final_score (PyFloat.of_N 2) (PyFloat.of_N 2) None
    = Ok (PyFloat.of_N 2) ∧
  Matcher.final_score <$> Matcher.calculate_final_score (PyFloat.of_Z (-1)) PyFloat.zero None
    = Ok (SFopp (PyFloat.of_ratio 6 10)).
Proof. split; vm_compute; reflexivity. Qed.

(** C6: with the default weights the explanation is the template with 60
    and 40 as the two percentages and the two scores formatted with two
    decimals. *)
Theorem calculate_final_score_explanation (s c : float) :
  ∃ r, Matcher.calculate_final_score s c None = Ok r ∧
       Matcher.explanation r =
         "Score based on 60% semantic similarity (" +:+ Format.format_f 2 s
         +:+ ") and 40% skill coverage (" +:+ Format.format_f 2 c +:+ ").".
Proof.
  rewrite calculate_final_score_None.
  rewrite (calculate_final_score_weights s c _ _ _
             default_weights_semantic default_weights_skill).
  eexists. split; [reflexivity|]. cbn [Matcher.explanation].
  destruct default_percentages as [-> ->]. reflexivity.
Qed.

(** The explanation of the scores 0.7512 and 2/3. *)
Example calculate_final_score_explanation_example :
  Matcher.explanation <$>
    Matcher.calculate_final_score (PyFloat.of_ratio 7512 10000) (PyFloat.of_ratio 2 3) None
  = Ok "Score based on 60% semantic similarity (0.75) and 40% skill coverage (0.67).".
Proof. vm_compute. reflexivity. Qed.

(** Two decimals, ties to even on the exact binary value: 0.125 gives 0.12,
    0.375 gives 0.38, 2.675 (below the decimal in binary) gives 2.67. *)
Example format_f_rounding :
  Format.format_f 2 (PyFloat.of_ratio 125 1000) = "0.12" ∧
  Format.format_f 2 (PyFloat.of_ratio 375 1000) = "0.38" ∧
  Format.format_f 2 (PyFloat.of_ratio 2675 1000) = "2.67" ∧
  Format.format_f 2 (SFopp (PyFloat.of_ratio 5 10)) = "-0.50" ∧
  Format.format_f 2 S754_nan = "nan".
Proof. repeat split; vm_compute; reflexivity. Qed.


(** ** [extract_skills] and [parse_skills_from_jd] *)

Section SkillFacts.
Import Parser.
Variable fuzz : gmap string scorer.

(** The module has no attribute of the name the program asks for: the
    lookup raises before [process.extract] is called. *)
Lemma extract_skills_no_attribute text skill_list threshold :
  fuzz !! "PARTIAL_RATIO" = None →
  extract_skills fuzz text skill_list threshold =
  Raise (AttributeError no_PARTIAL_RATIO).
Proof. intros H. unfold extract_skills, getattr. by rewrite H. Qed.

Lemma parse_skills_from_jd_no_attribute ucd jd_text :
  fuzz !! "PARTIAL_RATIO" = None →
  parse_skills_from_jd ucd fuzz jd_text = Raise (AttributeError no_PARTIAL_RATIO).
Proof. apply extract_skills_no_attribute. Qed.

Lemma insert_by_score_Permutation (m : match_) (l : list match_) :
  insert_by_score m l ≡ₚ m :: l.
Proof.
  induction l as [|m' l IH]; [done|]. simpl.
  destruct (PyFloat.leb _ _); [done|].
  rewrite IH. apply Permutation_swap.
Qed.

Lemma sort_by_score_Permutation (l : list match_) :
  foldr insert_by_score [] l ≡ₚ l.
Proof.
  induction l as [|m l IH]; [done|]. simpl.
  by rewrite insert_by_score_Permutation, IH.
Qed.

(** The matches are the choices whose score reaches the cutoff. *)
Lemma elem_of_process_extract (f : scorer) query choices cutoff (m : match_) :
  m ∈ process_extract f query choices cutoff ↔
  ∃ i choice, choices !! i = Some choice ∧
    m = (choice, f query choice, i) ∧
    PyFloat.leb (PyFloat.of_Z cutoff) (f query choice) = true.
Proof.
  unfold process_extract.
  rewrite sort_by_score_Permutation, list_elem_of_filter, elem_of_lookup_imap.
  split.
  - intros (Hs & i & choice & -> & Hi). by exists i, choice.
  - intros (i & choice & Hi & -> & Hs). split; [done|]. by exists i, choice.
Qed.

Lemma elem_of_found_skills (matches : list match_) (found : gset string) x :
  x ∈ fold_left (fun found m => {[ (m.1).1 ]} ∪ found) matches found ↔
  x ∈ found ∨ ∃ m, m ∈ matches ∧ (m.1).1 = x.
Proof.
  revert found. induction matches as [|m matches IH]; intros found; simpl.
  - split; [by left|]. intros [?|(m & Hm & _)]; [done|]. by apply not_elem_of_nil in Hm.
  - rewrite IH. split.
    + intros [[->%elem_of_singleton|H]%elem_of_union|(m' & Hm' & <-)].
      * right. exists m. split; [left|done].
      * by left.
      * right. exists m'. split; [by right|done].
    + intros [H|(m' & [->|Hm']%elem_of_cons & <-)].
      * left. set_solver.
      * left. set_solver.
      * right. by exists m'.
Qed.

(** The lookup is all that fails: had the module the attribute, the
    skills returned would be the entries of the catalog whose score reaches
    the threshold, without repetition, in ascending order. *)
Lemma extract_skills_with_attribute (f : scorer) text skill_list threshold :
  fuzz !! "PARTIAL_RATIO" = Some f →
  ∃ found,
    extract_skills fuzz text skill_list threshold = Ok found ∧
    (∀ x, x ∈ found ↔
       x ∈ skill_list ∧ PyFloat.leb (PyFloat.of_Z threshold) (f text x) = true) ∧
    NoDup found ∧ StronglySorted String.le found.
Proof.
  intros H. eexists. unfold extract_skills, getattr. rewrite H.
  split; [reflexivity|]. split_and!.
  - intros x. rewrite sorted_elem_of, elem_of_elements, elem_of_found_skills.
    split.
    + intros [Hx|(m & Hm & <-)]; [set_solver|].
      apply elem_of_process_extract in Hm as (i & choice & Hi & -> & Hs).
      split; [|done]. by eapply list_elem_of_lookup_2.
    + intros [(i & Hi)%list_elem_of_lookup_1 Hs]. right.
      exists (x, f text x, i). split; [|done].
      apply elem_of_process_extract. by exists i, x.
  - apply sorted_NoDup, NoDup_elements.
  - apply sorted_ascending.
Qed.

End SkillFacts.

(** C2: [extract_skills] returns no list. The module [rapidfuzz.fuzz] has
    no attribute [PARTIAL_RATIO], so on every text, catalog and threshold
    the call raises [AttributeError] before any skill is matched. *)
Theorem extract_skills_attribute_error
    (fuzz : gmap string Parser.scorer)
    (text : string) (skill_list : list string) (threshold : Z) :
  fuzz !! "PARTIAL_RATIO" = None →
  Parser.extract_skills fuzz text skill_list threshold =
  Raise (AttributeError
    "module 'rapidfuzz.fuzz' has no attribute 'PARTIAL_RATIO'").
Proof. apply extract_skills_no_attribute. Qed.

Lemma extract_skills_attribute_error_witness :
  Deployment.fuzz !! "PARTIAL_RATIO" = None ∧
  Parser.extract_skills Deployment.fuzz "python developer" ["python"; "sql"] 85 =
  Raise (AttributeError
    "module 'rapidfuzz.fuzz' has no attribute 'PARTIAL_RATIO'").
Proof.
  assert (H : Deployment.fuzz !! "PARTIAL_RATIO" = None) by (vm_compute; reflexivity).
  split; [exact H|].
  exact (extract_skills_attribute_error Deployment.fuzz "python developer"
           ["python"; "sql"] 85 H).
Defined.

(** C10: [parse_skills_from_jd] returns no list either. On a job
    description, on its lower-case form, and in the call of [extract_skills]
    the claim compares them with, the same [AttributeError] is raised. *)
Theorem parse_skills_from_jd_attribute_error
    (ucd : unicode) (fuzz : gmap string Parser.scorer) (jd_text : string) :
  fuzz !! "PARTIAL_RATIO" = None →
  let error : result (list string) :=
    Raise (AttributeError
      "module 'rapidfuzz.fuzz' has no attribute 'PARTIAL_RATIO'") in
  Parser.parse_skills_from_jd ucd fuzz jd_text = error ∧
  Parser.parse_skills_from_jd ucd fuzz (lower ucd jd_text) = error ∧
  Parser.extract_skills fuzz (lower ucd jd_text) Parser.SKILL_DATABASE 90 = error.
Proof.
  intros H. cbv zeta. split_and!.
  - by apply parse_skills_from_jd_no_attribute.
  - by apply parse_skills_from_jd_no_attribute.
  - by apply extract_skills_no_attribute.
Qed.

Lemma parse_skills_from_jd_attribute_error_witness :
  Deployment.fuzz !! "PARTIAL_RATIO" = None ∧
  Parser.parse_skills_from_jd Deployment.ucd Deployment.fuzz
    "Senior Python Developer" =
  Raise (AttributeError
    "module 'rapidfuzz.fuzz' has no attribute 'PARTIAL_RATIO'").
Proof.
  assert (H : Deployment.fuzz !! "PARTIAL_RATIO" = None) by (vm_compute; reflexivity).
  split; [exact H|].
  exact (proj1 (parse_skills_from_jd_attribute_error Deployment.ucd Deployment.fuzz
                  "Senior Python Developer" H)).
Defined.

Example lower_example :
  lower Deployment.ucd "Senior Java Developer, AWS & C++" =
  "senior java developer, aws & c++".
Proof. vm_compute. reflexivity. Qed.

(** ** The embedding model is unavailable *)

Section ModelFacts.
Context {SentenceTransformer embedding : Type}.
Variable encode : SentenceTransformer → string → result embedding.
Variable cos_sim : embedding → embedding → result float.

Lemma calculate_semantic_similarity_None text1 text2 :
  Matcher.calculate_semantic_similarity encode cos_sim None text1 text2 =
  (PyFloat.zero, ["Model is not loaded. Returning 0.0"]).
Proof. reflexivity. Qed.

(** An exception of the library is swallowed too. *)
Lemma calculate_semantic_similarity_error m text1 text2 e :
  encode m text1 = Raise e →
  (Matcher.calculate_semantic_similarity encode cos_sim (Some m) text1 text2).1 =
  PyFloat.zero.
Proof. intros H. unfold Matcher.calculate_semantic_similarity. by rewrite H. Qed.

End ModelFacts.

(** C1, as stated, fails: without a model the request is refused with the
    status 500 and the message of the guard, nothing is printed, and there
    is no response with a similarity of 0.0. *)
Lemma rank_resume_unavailable_aborts :
  Deployment.rank_resume None "Python and SQL" Deployment.resume =
    (Raise (HTTPException 500 "ML Model is not loaded. Cannot process request."),
     []) ∧
  ¬ (∃ response,
     (Deployment.rank_resume None "Python and SQL" Deployment.resume).1
     = Ok response ∧
     Main.semantic_similarity response = PyFloat.zero).
Proof.
  split; [reflexivity|].
  intros (response & H & _). vm_compute in H. discriminate H.
Qed.

(** C1, amended: without a model [calculate_semantic_similarity] prints
    the diagnostic and returns 0.0 on every pair of texts, and the endpoint
    refuses every request with the status 500 before it reads the resume. *)
Theorem model_unavailable
    {SentenceTransformer embedding : Type}
    (encode : SentenceTransformer → string → result embedding)
    (cos_sim : embedding → embedding → result float)
    (ucd : unicode) (fuzz : gmap string Parser.scorer)
    (extract_text docx2txt_process : string → result string)
    (save_temporary_file : Main.UploadFile → result string) :
  (∀ text1 text2,
     Matcher.calculate_semantic_similarity encode cos_sim None text1 text2
     = (PyFloat.zero, ["Model is not loaded. Returning 0.0"])) ∧
  (∀ job_description resume_file,
     Main.rank_resume encode cos_sim ucd fuzz extract_text docx2txt_process
       save_temporary_file None job_description resume_file
     = (Raise (HTTPException 500 "ML Model is not loaded. Cannot process request."),
        [])).
Proof. split; reflexivity. Qed.

(** ** Unreadable and empty documents *)

Section ExtractionFacts.
Import Parser.
Variable ucd : unicode.
Variable fuzz : gmap string scorer.
Variable extract_text docx2txt_process : string → result string.

Lemma extract_text_from_pdf_error path e :
  extract_text path = Raise e →
  extract_text_from_pdf ucd extract_text path =
  ("", ["Error reading PDF " +:+ path +:+ ": " +:+ str_exn e]).
Proof. intros H. unfold extract_text_from_pdf. by rewrite H. Qed.

Lemma extract_text_from_docx_error path e :
  docx2txt_process path = Raise e →
  extract_text_from_docx ucd docx2txt_process path =
  ("", ["Error reading DOCX " +:+ path +:+ ": " +:+ str_exn e]).
Proof. intros H. unfold extract_text_from_docx. by rewrite H. Qed.

Lemma parse_resume_pdf_error path e :
  endswith path ".pdf" = true →
  extract_text path = Raise e →
  parse_resume ucd fuzz extract_text docx2txt_process path =
  (no_text, ["Error reading PDF " +:+ path +:+ ": " +:+ str_exn e]).
Proof.
  intros Hp He. unfold parse_resume. rewrite Hp.
  by rewrite (extract_text_from_pdf_error _ _ He).
Qed.

Lemma parse_resume_pdf_empty path :
  endswith path ".pdf" = true →
  extract_text path = Ok "" →
  parse_resume ucd fuzz extract_text docx2txt_process path = (no_text, []).
Proof.
  intros Hp He. unfold parse_resume, extract_text_from_pdf. by rewrite Hp, He.
Qed.

Lemma parse_resume_docx_error path e :
  endswith path ".pdf" = false →
  endswith path ".docx" = true →
  docx2txt_process path = Raise e →
  parse_resume ucd fuzz extract_text docx2txt_process path =
  (no_text, ["Error reading DOCX " +:+ path +:+ ": " +:+ str_exn e]).
Proof.
  intros Hp Hd He. unfold parse_resume. rewrite Hp, Hd.
  by rewrite (extract_text_from_docx_error _ _ He).
Qed.

Lemma parse_resume_docx_empty path :
  endswith path ".pdf" = false →
  endswith path ".docx" = true →
  docx2txt_process path = Ok "" →
  parse_resume ucd fuzz extract_text docx2txt_process path = (no_text, []).
Proof.
  intros Hp Hd He. unfold parse_resume, extract_text_from_docx.
  by rewrite Hp, Hd, He.
Qed.

End ExtractionFacts.

Section EndpointFacts.
Context {SentenceTransformer embedding : Type}.
Variable encode : SentenceTransformer → string → result embedding.
Variable cos_sim : embedding → embedding → result float.
Variable ucd : unicode.
Variable fuzz : gmap string Parser.scorer.
Variable extract_text docx2txt_process : string → result string.
Variable save_temporary_file : Main.UploadFile → result string.

(** A resume without text is answered with an [HTTPException] that depends
    on nothing but the availability of the model. *)
Lemma rank_resume_no_text MODEL job_description resume_file path out :
  save_temporary_file resume_file = Ok path →
  Parser.parse_resume ucd fuzz extract_text docx2txt_process path =
    (no_text, out) →
  (Main.rank_resume encode cos_sim ucd fuzz extract_text docx2txt_process
     save_temporary_file MODEL job_description resume_file).1 =
  Raise (HTTPException 500
    match MODEL with
    | None => "ML Model is not loaded. Cannot process request."
    | Some _ => "An unexpected error occurred: 400: Error parsing resume: Could not read text from file"
    end).
Proof.
  intros Hs Hp. unfold Main.rank_resume.
  destruct MODEL as [m|]; [|done].
  rewrite Hs. unfold Main.score_resume. rewrite Hp. reflexivity.
Qed.

End EndpointFacts.

(** The [HTTPException] with status 400 is raised inside the [try] whose
    handler catches every [Exception]: the response carries the status 500. *)
Example rank_resume_unsupported_type :
  Deployment.rank_resume (Some tt) "Python and SQL"
    {| Main.filename := "resume.txt"; Main.content := "plain text" |} =
  (Raise (HTTPException 500
     "An unexpected error occurred: 400: Error parsing resume: Unsupported file type"),
   []).
Proof. vm_compute. reflexivity. Qed.

(** With a loaded model and a readable resume the [AttributeError] of
    [extract_skills] reaches the same handler. *)
Example rank_resume_loaded :
  Deployment.rank_resume (Some tt) "Python and SQL" Deployment.resume =
  (Raise (HTTPException 500
     "An unexpected error occurred: module 'rapidfuzz.fuzz' has no attribute 'PARTIAL_RATIO'"),
   []).
Proof. vm_compute. reflexivity. Qed.

(** C8, as stated, fails: a PDF whose reader raises and a PDF whose reader
    yields no text give the same value, an error record without the cause;
    nothing is raised. *)
Lemma parse_resume_failure_not_distinct :
  let unreadable :=
    Parser.parse_resume Deployment.ucd Deployment.fuzz
      (fun _ => Raise (Exception "No /Root object! - Is this really a PDF?"))
      Deployment.docx2txt_process "resume.pdf" in
  let empty :=
    Parser.parse_resume Deployment.ucd Deployment.fuzz (fun _ => Ok "")
      Deployment.docx2txt_process "resume.pdf" in
  ¬ (unreadable.1 ≠ empty.1) ∧
  unreadable.1 = Ok (Parser.ParseError "Could not read text from file").
Proof. split; [intros H; apply H|]; reflexivity. Qed.

(** C8, amended: when the reader of the document raises, the exception is
    printed and [parse_resume] returns the error record "Could not read text
    from file", the value it also returns when the reader yields the empty
    text; it raises nothing, and the endpoint answers both requests with the
    same [HTTPException]. *)
Theorem parse_resume_unreadable_or_empty
    {SentenceTransformer embedding : Type}
    (encode : SentenceTransformer → string → result embedding)
    (cos_sim : embedding → embedding → result float)
    (ucd : unicode) (fuzz : gmap string Parser.scorer)
    (pdf_raising pdf_empty docx_raising docx_empty : string → result string)
    (save_temporary_file : Main.UploadFile → result string)
    (path : string) (e : exn) :
  (endswith path ".pdf" = true ∧
     pdf_raising path = Raise e ∧ pdf_empty path = Ok "") ∨
  (endswith path ".pdf" = false ∧ endswith path ".docx" = true ∧
     docx_raising path = Raise e ∧ docx_empty path = Ok "") →
  let unreadable := Parser.parse_resume ucd fuzz pdf_raising docx_raising path in
  let empty := Parser.parse_resume ucd fuzz pdf_empty docx_empty path in
  unreadable.1 = Ok (Parser.ParseError "Could not read text from file") ∧
  empty.1 = Ok (Parser.ParseError "Could not read text from file") ∧
  (∃ kind, unreadable.2 =
     ["Error reading " +:+ kind +:+ " " +:+ path +:+ ": " +:+ str_exn e]) ∧
  empty.2 = [] ∧
  ∀ MODEL job_description resume_file,
    save_temporary_file resume_file = Ok path →
    ∃ status detail,
      (Main.rank_resume encode cos_sim ucd fuzz pdf_raising docx_raising
         save_temporary_file MODEL job_description resume_file).1 =
      Raise (HTTPException status detail) ∧
      (Main.rank_resume encode cos_sim ucd fuzz pdf_empty docx_empty
         save_temporary_file MODEL job_description resume_file).1 =
      Raise (HTTPException status detail).
Proof.
  intros [(Hp & Hr & He)|(Hp & Hd & Hr & He)]; cbv zeta.
  - pose proof (parse_resume_pdf_error ucd fuzz _ docx_raising _ _ Hp Hr) as H1.
    pose proof (parse_resume_pdf_empty ucd fuzz _ docx_empty _ Hp He) as H2.
    rewrite H1, H2. split_and!; try done.
    + by exists "PDF".
    + intros MODEL jd file Hs. eexists _, _. split.
      * exact (rank_resume_no_text encode cos_sim _ _ _ _ _ MODEL jd file _ _ Hs H1).
      * exact (rank_resume_no_text encode cos_sim _ _ _ _ _ MODEL jd file _ _ Hs H2).
  - pose proof (parse_resume_docx_error ucd fuzz pdf_raising _ _ _ Hp Hd Hr) as H1.
    pose proof (parse_resume_docx_empty ucd fuzz pdf_empty _ _ Hp Hd He) as H2.
    rewrite H1, H2. split_and!; try done.
    + by exists "DOCX".
    + intros MODEL jd file Hs. eexists _, _. split.
      * exact (rank_resume_no_text encode cos_sim _ _ _ _ _ MODEL jd file _ _ Hs H1).
      * exact (rank_resume_no_text encode cos_sim _ _ _ _ _ MODEL jd file _ _ Hs H2).
Qed.

Lemma parse_resume_unreadable_or_empty_witness :
  let pdf_raising : string → result string :=
    fun _ => Raise (Exception "No /Root object! - Is this really a PDF?") in
  let pdf_empty : string → result string := fun _ => Ok "" in
  let docx := Deployment.docx2txt_process in
  let path := "/tmp/upload-resume.pdf" in
  let e := Exception "No /Root object! - Is this really a PDF?" in
  ((endswith path ".pdf" = true ∧
      pdf_raising path = Raise e ∧ pdf_empty path = Ok "") ∨
   (endswith path ".pdf" = false ∧ endswith path ".docx" = true ∧
      docx path = Raise e ∧ docx path = Ok "")) ∧
  (Parser.parse_resume Deployment.ucd Deployment.fuzz pdf_raising docx path).1 =
    Ok (Parser.ParseError "Could not read text from file") ∧
  (Parser.parse_resume Deployment.ucd Deployment.fuzz pdf_empty docx path).1 =
    Ok (Parser.ParseError "Could not read text from file").
Proof.
  cbv zeta.
  assert (H : (endswith "/tmp/upload-resume.pdf" ".pdf" = true ∧
      (Raise (Exception "No /Root object! - Is this really a PDF?") : result string)
        = Raise (Exception "No /Root object! - Is this really a PDF?") ∧
      (Ok "" : result string) = Ok "") ∨
   (endswith "/tmp/upload-resume.pdf" ".pdf" = false ∧
      endswith "/tmp/upload-resume.pdf" ".docx" = true ∧
      Deployment.docx2txt_process "/tmp/upload-resume.pdf"
        = Raise (Exception "No /Root object! - Is this really a PDF?") ∧
      Deployment.docx2txt_process "/tmp/upload-resume.pdf" = Ok "")).
  { left. split_and!; reflexivity. }
  split; [exact H|].
  pose proof (parse_resume_unreadable_or_empty Deployment.encode Deployment.cos_sim
    Deployment.ucd Deployment.fuzz
    (fun _ => Raise (Exception "No /Root object! - Is this really a PDF?"))
    (fun _ => Ok "") Deployment.docx2txt_process Deployment.docx2txt_process
    Deployment.save_temporary_file "/tmp/upload-resume.pdf"
    (Exception "No /Root object! - Is this really a PDF?") H) as (H1 & H2 & _).
  split; [exact H1|exact H2].
Defined.
(** ** Floats of decimal literals and their order *)

Lemma iter_pos_invariant {A} (P : A → Prop) (f : A → A) :
  (∀ x, P x → P (f x)) → ∀ p x, P x → P (SpecFloat.iter_pos f p x).
Proof.
  intros Hf p. induction p as [p IH|p IH|]; intros x Hx; simpl; auto.
Qed.

Lemma shr_1_nonneg mrs : (0 <= shr_m mrs)%Z → (0 <= shr_m (shr_1 mrs))%Z.
Proof.
  destruct mrs as [m r s]. simpl.
  destruct m as [|[p|p|]|[p|p|]]; simpl; lia.
Qed.

Lemma shr_nonneg mrs e n : (0 <= shr_m mrs)%Z → (0 <= shr_m (shr mrs e n).1)%Z.
Proof.
  intros H. unfold shr. destruct n; simpl; try done.
  by apply (iter_pos_invariant (λ mrs, (0 <= shr_m mrs)%Z)); [apply shr_1_nonneg|].
Qed.

Lemma shr_record_of_loc_m m l : shr_m (shr_record_of_loc m l) = m.
Proof. by destruct l as [|[]]. Qed.

Lemma shr_fexp_nonneg prec emax m e l :
  (0 <= m)%Z → (0 <= shr_m (shr_fexp prec emax m e l).1)%Z.
Proof.
  intros H. unfold shr_fexp. apply shr_nonneg. by rewrite shr_record_of_loc_m.
Qed.

Lemma round_nearest_even_nonneg m l :
  (0 <= m)%Z → (0 <= round_nearest_even m l)%Z.
Proof.
  intros H. destruct l as [|[]]; simpl; try done; [destruct (Z.even m)|]; lia.
Qed.

Lemma binary_round_aux_positive_signed prec emax m e l :
  (0 <= m)%Z → PyFloat.positive_signed (binary_round_aux prec emax false m e l) = true.
Proof.
  intros H. unfold binary_round_aux.
  pose proof (shr_fexp_nonneg prec emax m e l H) as H1.
  destruct (shr_fexp prec emax m e l) as [mrs' e'].
  pose proof (shr_fexp_nonneg prec emax _ e' loc_Exact
    (round_nearest_even_nonneg _ (loc_of_shr_record mrs') H1)) as H2.
  destruct (shr_fexp prec emax _ e' loc_Exact) as [mrs'' e''].
  simpl in H2. destruct (shr_m mrs''); [done| |lia].
  by destruct (_ <=? _)%Z.
Qed.

Lemma of_ratio_positive_signed n d : PyFloat.positive_signed (PyFloat.of_ratio n d) = true.
Proof.
  unfold PyFloat.of_ratio. destruct n as [|p]; [done|].
  unfold SFdiv_core_binary.
  match goal with |- context [Z.div_eucl ?a ?b] =>
    pose proof (Z.div_eucl_eq a b ltac:(lia)) as Heq;
    pose proof (Z.mod_pos_bound a b ltac:(lia)) as Hb;
    assert (Ha : (0 <= a)%Z); [|
    unfold Z.modulo in Hb; destruct (Z.div_eucl a b) as [q r] ] end.
  { destruct (_ - _)%Z; try lia. apply Z.shiftl_nonneg. lia. }
  apply binary_round_aux_positive_signed. nia.
Qed.

(** Case analysis on the comparisons of exponents and mantissas. *)
Ltac float_cases :=
  unfold PyFloat.leb, PyFloat.ltb, SFleb, SFltb, SFcompare;
  change (Pos.compare_cont Eq) with Pos.compare;
  repeat match goal with
  | |- context [(?a ?= ?b)%Z] => destruct (Z.compare_spec a b)
  | |- context [(?a ?= ?b)%positive] => destruct (Pos.compare_spec a b)
  | H : context [(?a ?= ?b)%Z] |- _ => destruct (Z.compare_spec a b)
  | H : context [(?a ?= ?b)%positive] |- _ => destruct (Pos.compare_spec a b)
  end;
  try done; try lia.

Lemma leb_zero x : PyFloat.positive_signed x = true → PyFloat.leb PyFloat.zero x = true.
Proof. by destruct x as [[]|[]| |[] m e]. Qed.

Lemma leb_refl x : PyFloat.positive_signed x = true → PyFloat.leb x x = true.
Proof. destruct x as [[]|[]| |[] m e]; try done. intros _. float_cases. Qed.

Lemma ltb_false_leb x y :
  PyFloat.positive_signed x = true → PyFloat.positive_signed y = true →
  PyFloat.ltb x y = false → PyFloat.leb y x = true.
Proof.
  destruct x as [[]|[]| |[] m1 e1], y as [[]|[]| |[] m2 e2]; try done.
  intros _ _. float_cases.
Qed.

Lemma leb_trans x y z :
  PyFloat.positive_signed x = true → PyFloat.positive_signed y = true → PyFloat.positive_signed z = true →
  PyFloat.leb x y = true → PyFloat.leb y z = true → PyFloat.leb x z = true.
Proof.
  destruct x as [[]|[]| |[] m1 e1], y as [[]|[]| |[] m2 e2],
    z as [[]|[]| |[] m3 e3]; try done.
  intros _ _ _. float_cases.
Qed.

Lemma leb_zero_inv x :
  PyFloat.positive_signed x = true → PyFloat.leb x PyFloat.zero = true → x = PyFloat.zero.
Proof. by destruct x as [[]|[]| |[] m e]. Qed.

Lemma fold_max_spec l x :
  PyFloat.positive_signed x = true → Forall (λ y, PyFloat.positive_signed y = true) l →
  let r := fold_left (fun m y => if PyFloat.ltb m y then y else m) l x in
  PyFloat.positive_signed r = true ∧ r ∈ x :: l ∧ PyFloat.leb x r = true ∧
  Forall (λ y, PyFloat.leb y r = true) l.
Proof.
  intros Hx Hl. revert x Hx. induction Hl as [|a l Ha Hl IH]; intros x Hx; simpl.
  - split_and!; [done|left|by apply leb_refl|constructor].
  - set (m := if PyFloat.ltb x a then a else x).
    assert (Hm : PyFloat.positive_signed m = true) by (unfold m; by destruct (PyFloat.ltb x a)).
    assert (Hxm : PyFloat.leb x m = true).
    { unfold m. destruct (PyFloat.ltb x a) eqn:E; [|by apply leb_refl].
      revert E. unfold PyFloat.ltb, PyFloat.leb, SFltb, SFleb.
      by destruct (SFcompare x a) as [[]|]. }
    assert (Ham : PyFloat.leb a m = true).
    { unfold m. destruct (PyFloat.ltb x a) eqn:E; [by apply leb_refl|].
      by apply ltb_false_leb. }
    destruct (IH m Hm) as (Hr & Hin & Hmr & Hall).
    split_and!; [done| | |].
    + apply elem_of_cons in Hin as [->|Hin].
      * unfold m. destruct (PyFloat.ltb x a); [right; left|left].
      * by do 2 right.
    + by apply (leb_trans x m).
    + constructor; [|done]. by apply (leb_trans a m).
Qed.

(** ** The backtracking matcher *)

Section MatcherFacts.
Variable ucd : unicode.

Lemma all_in_app cs (w1 w2 : list N) :
  Re.all_in ucd cs (w1 ++ w2) = Re.all_in ucd cs w1 && Re.all_in ucd cs w2.
Proof. apply forallb_app. Qed.

Section Sound.
Context {R : Type}.

Lemma match_star_sound cs (next : list N → option R) s r :
  Re.match_star ucd cs next s = Some r →
  ∃ w s1, s = w ++ s1 ∧ Re.all_in ucd cs w = true ∧ next s1 = Some r.
Proof.
  induction s as [|c s IH]; simpl.
  - intros H. by exists [], [].
  - destruct (Re.mem ucd c cs) eqn:Hc; [|intros H; by exists [], (c :: s)].
    destruct (Re.match_star ucd cs next s) as [r'|] eqn:E.
    + intros [= ->]. destruct (IH eq_refl) as (w & s1 & -> & Hw & Hn).
      exists (c :: w), s1. split_and!; [done| |done]. simpl. by rewrite Hc.
    + intros H. by exists [], (c :: s).
Qed.

Lemma match_here_sound atoms s (k : list N → option R) r :
  Re.match_here ucd atoms s k = Some r →
  ∃ w s1, s = w ++ s1 ∧ Re.atoms_lang ucd atoms w ∧ k s1 = Some r.
Proof.
  revert s. induction atoms as [|[cs q] atoms IH]; intros s; simpl.
  - intros H. by exists [], s.
  - assert (Hnext : ∀ s0 w0, Re.atom_lang ucd (cs, q) w0 →
       Re.match_here ucd atoms s0 k = Some r →
       ∃ w s1, w0 ++ s0 = w ++ s1 ∧
         (∃ w1 w2, w = w1 ++ w2 ∧ Re.atom_lang ucd (cs, q) w1 ∧
                   Re.atoms_lang ucd atoms w2) ∧
         k s1 = Some r).
    { intros s0 w0 Hw0 H. destruct (IH _ H) as (w & s1 & -> & Hw & Hk).
      exists (w0 ++ w), s1. split_and!; [by rewrite app_assoc| |done].
      by exists w0, w. }
    destruct q.
    + destruct s as [|c s]; [done|]. destruct (Re.mem ucd c cs) eqn:Hc; [|done].
      intros H. apply (Hnext s [c]); [|done]. by exists c.
    + destruct s as [|c s].
      * intros H. apply (Hnext [] []); [by left|done].
      * destruct (Re.mem ucd c cs) eqn:Hc.
        -- destruct (Re.match_here ucd atoms s k) as [r'|] eqn:E.
           ++ intros [= ->]. apply (Hnext s [c]); [|done].
              right. by exists c.
           ++ intros H. apply (Hnext (c :: s) []); [by left|done].
        -- intros H. apply (Hnext (c :: s) []); [by left|done].
    + intros H. apply match_star_sound in H as (w0 & s0 & -> & Hw0 & H).
      by apply Hnext.
    + destruct s as [|c s]; [done|]. destruct (Re.mem ucd c cs) eqn:Hc; [|done].
      intros H. apply match_star_sound in H as (w0 & s0 & -> & Hw0 & H).
      apply (Hnext s0 (c :: w0)); [|done].
      split; [done|]. simpl. by rewrite Hc.
Qed.

End Sound.

Lemma take_prefix (w s1 : list N) :
  take (length (w ++ s1) - length s1) (w ++ s1) = w.
Proof.
  rewrite length_app.
  replace (length w + length s1 - length s1) with (length w) by lia.
  induction w as [|c w IH]; simpl; [by destruct s1|by rewrite IH].
Qed.

Section Complete.
Context {R : Type}.

Lemma match_star_fallback cs (next : list N → option R) s :
  is_Some (next s) → is_Some (Re.match_star ucd cs next s).
Proof.
  intros H. destruct s as [|c s]; simpl; [done|].
  destruct (Re.mem ucd c cs); [|done].
  by destruct (Re.match_star ucd cs next s).
Qed.

Lemma match_star_complete cs (next : list N → option R) w s1 :
  Re.all_in ucd cs w = true → is_Some (next s1) →
  is_Some (Re.match_star ucd cs next (w ++ s1)).
Proof.
  intros Hw Hn. induction w as [|c w IH]; [by apply match_star_fallback|].
  simpl in Hw. apply andb_true_iff in Hw as [Hc Hw].
  simpl. rewrite Hc. destruct (IH Hw) as [r ->]. by eexists.
Qed.

Lemma match_here_complete atoms w s1 (k : list N → option R) :
  Re.atoms_lang ucd atoms w → is_Some (k s1) →
  is_Some (Re.match_here ucd atoms (w ++ s1) k).
Proof.
  revert w. induction atoms as [|[cs q] atoms IH]; intros w; simpl.
  - by intros ->.
  - intros (w1 & w2 & -> & H1 & H2) Hk. rewrite <- app_assoc.
    specialize (IH w2 H2 Hk). unfold Re.atom_lang in H1. simpl in H1.
    destruct q.
    + destruct H1 as (c & -> & Hc). simpl. by rewrite Hc.
    + destruct H1 as [->|(c & -> & Hc)].
      * simpl. destruct (w2 ++ s1) as [|c s] eqn:E; [done|].
        destruct (Re.mem ucd c cs); [|done].
        by destruct (Re.match_here ucd atoms s k).
      * simpl. rewrite Hc. destruct IH as [r ->]. by eexists.
    + by apply match_star_complete.
    + destruct H1 as [Hne Hw1]. destruct w1 as [|c w1]; [done|].
      simpl in Hw1. apply andb_true_iff in Hw1 as [Hc Hw1].
      simpl. rewrite Hc. by apply match_star_complete.
Qed.

End Complete.

Lemma match_at_complete p g t post :
  Re.atoms_lang ucd (Re.group p) g → Re.atoms_lang ucd (Re.tail p) t →
  is_Some (Re.match_at ucd p (g ++ t ++ post)).
Proof.
  intros Hg Ht. unfold Re.match_at.
  apply match_here_complete; [done|]. by apply match_here_complete.
Qed.

Lemma match_at_sound p s g len :
  Re.match_at ucd p s = Some (g, len) →
  ∃ t post, s = g ++ t ++ post ∧
    Re.atoms_lang ucd (Re.group p) g ∧ Re.atoms_lang ucd (Re.tail p) t.
Proof.
  unfold Re.match_at. intros H.
  apply match_here_sound in H as (w & s1 & -> & Hw & H).
  apply match_here_sound in H as (w2 & s2 & -> & Hw2 & H).
  injection H as <- _. rewrite take_prefix. by exists w2, s2.
Qed.

Lemma elem_of_findall_from_suffix p s skip g :
  g ∈ Re.findall_from ucd p s skip →
  ∃ pre s' len, s = pre ++ s' ∧ Re.match_at ucd p s' = Some (g, len).
Proof.
  revert skip. induction s as [|c s IH]; intros skip; simpl.
  - intros H. by apply not_elem_of_nil in H.
  - assert (Htl : ∀ n, g ∈ Re.findall_from ucd p s n →
      ∃ pre s' len, c :: s = pre ++ s' ∧ Re.match_at ucd p s' = Some (g, len)).
    { intros n (pre & s' & len & -> & H)%IH. by exists (c :: pre), s', len. }
    destruct skip as [|n]; [|by apply Htl].
    destruct (Re.match_at ucd p (c :: s)) as [[g' len]|] eqn:E; [|by apply Htl].
    intros [->|H]%elem_of_cons; [|by eapply Htl].
    by exists [], (c :: s), len.
Qed.

Lemma findall_nil_suffix p s pre c s' :
  Re.findall_from ucd p s 0 = [] → s = pre ++ c :: s' →
  Re.match_at ucd p (c :: s') = None.
Proof.
  revert pre. induction s as [|c0 s IH]; intros pre; simpl.
  - intros _. by destruct pre.
  - destruct (Re.match_at ucd p (c0 :: s)) as [[g len]|] eqn:E; [done|].
    intros Hn Hs. destruct pre as [|c1 pre].
    + simpl in Hs. by rewrite <- Hs.
    + simpl in Hs. injection Hs as _ Hs. by eapply IH.
Qed.

(** A pattern of the program finds nothing exactly when no part of the text
    is made of a number followed by the tail of the pattern. *)
Lemma findall_nil_iff p text :
  Re.group p = Parser.number_group →
  Re.findall ucd p text = [] ↔ ¬ Re.occurs ucd p text.
Proof.
  intros Hgrp. unfold Re.occurs. split.
  - intros Hnil (pre & g & t & post & Ht & Hg & Htl).
    assert (Hne : ∃ c g', g = c :: g').
    { rewrite Hgrp in Hg. destruct Hg as (w1 & w2 & -> & [Hne _] & _).
      destruct w1 as [|c w1]; [done|]. by exists c, (w1 ++ w2). }
    destruct Hne as (c & g' & ->).
    pose proof (match_at_complete p _ _ post Hg Htl) as [r Hr].
    simpl in Hr, Ht.
    rewrite (findall_nil_suffix p text pre c _ Hnil Ht) in Hr. done.
  - intros Hno. destruct (Re.findall ucd p text) as [|g l] eqn:E; [done|].
    exfalso. apply Hno.
    assert (Hin : g ∈ Re.findall_from ucd p text 0)
      by (unfold Re.findall in E; rewrite E; left).
    apply elem_of_findall_from_suffix in Hin as (pre & s' & len & -> & Hm).
    apply match_at_sound in Hm as (t & post & -> & Hg & Ht).
    by exists pre, g, t, post.
Qed.

Lemma is_digit_value c :
  Re.is_digit ucd c = true → ∃ d, Re.digit_value ucd c = Some d.
Proof. unfold Re.is_digit. destruct (Re.digit_value ucd c); [by eauto|done]. Qed.

Lemma digits_value_all_in w acc :
  Re.all_in ucd Re.Digit w = true → ∃ n, digits_value ucd acc w = Some n.
Proof.
  revert acc. induction w as [|c w IH]; intros acc; simpl; [by eauto|].
  intros [Hc Hw]%andb_true_iff. destruct (is_digit_value c Hc) as [d ->].
  by apply IH.
Qed.

(** The point is no digit: it is an ASCII character other than 0 to 9. *)
Lemma is_digit_not_point c : Re.is_digit ucd c = true → (c =? 46)%N = false.
Proof.
  destruct (N.eqb_spec c 46) as [->|]; [|done].
  vm_compute. intros H. discriminate H.
Qed.

Lemma split_point_digits w rest :
  Re.all_in ucd Re.Digit w = true →
  split_point (w ++ rest) = (w ++ (split_point rest).1, (split_point rest).2).
Proof.
  induction w as [|c w IH].
  - intros _. simpl. by destruct (split_point rest).
  - simpl. intros [Hc Hw]%andb_true_iff.
    rewrite (is_digit_not_point _ Hc), (IH Hw). done.
Qed.

Lemma split_point_all_digits w :
  Re.all_in ucd Re.Digit w = true → split_point w = (w, None).
Proof.
  intros H. rewrite <- (app_nil_r w) at 1.
  rewrite split_point_digits by done. simpl. by rewrite app_nil_r.
Qed.

Lemma py_float_number w :
  Re.atoms_lang ucd Parser.number_group w →
  ∃ n d, py_float ucd w = Ok (PyFloat.of_ratio n d).
Proof.
  intros (w1 & r1 & -> & [Hne H1] & w2 & r2 & -> & H2 & w3 & r3 & -> & H3 & ->).
  simpl in H1, H2, H3. unfold py_float. rewrite app_nil_r.
  assert (Hlen : ∀ x, length (w1 ++ x) ≠ 0).
  { intros x. rewrite length_app. destruct w1; [done|simpl; lia]. }
  destruct H2 as [->|(c & -> & Hc%N.eqb_eq)].
  - simpl.
    rewrite split_point_all_digits by (by rewrite all_in_app, H1, H3).
    cbn [default from_option id]. rewrite app_nil_r.
    destruct (digits_value_all_in (w1 ++ w3) 0) as [n Hn];
      [by rewrite all_in_app, H1, H3|].
    rewrite Hn. destruct (Nat.eqb_spec (length (w1 ++ w3)) 0) as [E|_];
      [by apply Hlen in E|]. by eauto.
  - subst c. rewrite split_point_digits by done.
    change (split_point ([N_of_ascii "."] ++ w3)) with (([] : list N), Some w3).
    cbn [fst snd default from_option id]. rewrite app_nil_r.
    destruct (digits_value_all_in (w1 ++ w3) 0) as [n Hn];
      [by rewrite all_in_app, H1, H3|].
    rewrite Hn. destruct (Nat.eqb_spec (length (w1 ++ w3)) 0) as [E|_];
      [by apply Hlen in E|]. by eauto.
Qed.

End MatcherFacts.

(** ** [extract_years_of_experience] *)

Section ExperienceFacts.
Import Parser.
Variable ucd : unicode.

(** Every capture of a pattern with the number group is in its language. *)
Lemma findall_captures p text :
  Re.group p = number_group →
  Forall (Re.atoms_lang ucd number_group) (Re.findall ucd p text).
Proof.
  intros Hg. apply Forall_forall. intros g Hin.
  apply elem_of_findall_from_suffix in Hin as (pre & s' & len & _ & H).
  apply match_at_sound in H as (t & post & _ & H & _). by rewrite Hg in H.
Qed.

(** On such captures [float] never fails: every one of them is appended. *)
Lemma append_years_values found matches :
  Forall (Re.atoms_lang ucd number_group) matches →
  ∃ values,
    Forall2 (fun c v => py_float ucd c = Ok v) matches values ∧
    Forall (fun v => PyFloat.positive_signed v = true) values ∧
    append_years ucd found matches = found ++ values.
Proof.
  intros H. revert found. induction H as [|c matches Hc H IH]; intros found.
  - exists []. split_and!; [constructor|constructor|]. by rewrite app_nil_r.
  - destruct (py_float_number ucd c Hc) as (n & d & Hf).
    destruct (IH (found ++ [PyFloat.of_ratio n d])) as (values & H2 & Hps & Heq).
    exists (PyFloat.of_ratio n d :: values). split_and!.
    + by constructor.
    + constructor; [apply of_ratio_positive_signed|done].
    + unfold append_years in *. simpl. rewrite Hf, Heq. by rewrite <- app_assoc.
Qed.

Lemma found_years_of_values text :
  ∃ values,
    Forall2 (fun c v => py_float ucd c = Ok v)
      (Re.findall ucd pattern_years text ++ Re.findall ucd pattern_yrs text)
      values ∧
    Forall (fun v => PyFloat.positive_signed v = true) values ∧
    found_years_of ucd text = PyFloat.zero :: values.
Proof.
  unfold found_years_of, patterns. simpl.
  destruct (append_years_values [PyFloat.zero] (Re.findall ucd pattern_years text))
    as (v1 & F1 & P1 & E1); [by apply findall_captures|].
  destruct (append_years_values ([PyFloat.zero] ++ v1)
              (Re.findall ucd pattern_yrs text))
    as (v2 & F2 & P2 & E2); [by apply findall_captures|].
  exists (v1 ++ v2). split_and!.
  - by apply Forall2_app.
  - by apply Forall_app.
  - rewrite E1, E2. by rewrite <- app_assoc.
Qed.

End ExperienceFacts.

(** The captures of the two patterns on a text of several mentions, whatever
    the character database: the text is ASCII. *)
Example findall_example ucd :
  let text := Utf8.decode
    "5+ years, 3 yrs, 12.5yrs, 7. yers, 1.2.3 year, 9 y rs, 10years20yr, 4 +  yars" in
  map Utf8.encode (Re.findall ucd Parser.pattern_years text)
  = ["5"; "3"; "12.5"; "7."; "2.3"; "10"; "20"; "4"] ∧
  map Utf8.encode (Re.findall ucd Parser.pattern_yrs text)
  = ["3"; "12.5"; "20"].
Proof. split; vm_compute; reflexivity. Qed.

(** C7: [extract_years_of_experience] returns a float on every text.
    There is no capture exactly when neither pattern occurs in the text, and
    then the result is 0.0; every capture of the two patterns is a number;
    with captures the result is one of the captured numbers and none of them
    is above it; it is never below 0.0; on "5+ years, also 3 yrs" it is
    5.0. Digits and white space are those of Unicode, whatever the
    character database says beyond ASCII. *)
Theorem extract_years_of_experience_max :
  (∀ (ucd : unicode) (text : string),
     let points := Utf8.decode text in
     let captures := Re.findall ucd Parser.pattern_years points
                     ++ Re.findall ucd Parser.pattern_yrs points in
     ∃ years values,
       Parser.extract_years_of_experience ucd text = Ok years ∧
       (captures = [] ↔
          ¬ Re.occurs ucd Parser.pattern_years points ∧
          ¬ Re.occurs ucd Parser.pattern_yrs points) ∧
       Forall2 (fun c v => py_float ucd c = Ok v) captures values ∧
       (captures = [] → years = PyFloat.zero) ∧
       (captures ≠ [] → years ∈ values) ∧
       (∀ v, v ∈ values → PyFloat.leb v years = true) ∧
       PyFloat.leb PyFloat.zero years = true) ∧
  (∀ ucd : unicode,
     Parser.extract_years_of_experience ucd "5+ years, also 3 yrs"
     = Ok (PyFloat.of_N 5)).
Proof.
  split; [|intros ucd; vm_compute; reflexivity].
  intros ucd text points captures.
  destruct (found_years_of_values ucd points) as (values & HF & Hps & Heq).
  fold captures in HF.
  destruct (fold_max_spec values PyFloat.zero eq_refl Hps)
    as (Hr & Hin & Hz & Hall).
  set (years := fold_left _ values PyFloat.zero) in *.
  exists years, values. split_and!.
  - unfold Parser.extract_years_of_experience. fold points. by rewrite Heq.
  - unfold captures.
    rewrite <- !findall_nil_iff by done. split.
    + by intros [-> ->]%app_eq_nil.
    + by intros [-> ->].
  - done.
  - intros Hc. rewrite Hc in HF. apply Forall2_nil_inv_l in HF. by subst values.
  - intros Hc.
    apply elem_of_cons in Hin as [Hy|Hin]; [|done].
    destruct values as [|v values'].
    { apply Forall2_nil_inv_r in HF. done. }
    apply Forall_cons in Hall as [Hv _]. apply Forall_cons in Hps as [Hpv _].
    rewrite Hy in Hv. apply leb_zero_inv in Hv; [|done].
    rewrite Hy, <- Hv. left.
  - intros v Hv. by eapply Forall_forall in Hall.
  - done.
Qed.

(** Values of the literals the patterns capture. *)
Example py_float_example ucd :
  py_float ucd (Utf8.decode "5") = Ok (PyFloat.of_N 5) ∧
  py_float ucd (Utf8.decode "7.") = Ok (PyFloat.of_N 7) ∧
  py_float ucd (Utf8.decode "12.5") = Ok (PyFloat.of_ratio 25 2) ∧
  py_float ucd (Utf8.decode "0.1") = Ok (S754_finite false 7205759403792794 (-56)) ∧
  py_float ucd (Utf8.decode "007") = Ok (PyFloat.of_N 7).
Proof. repeat split; vm_compute; reflexivity. Qed.

(** Beyond ASCII: a no-break space (U+00A0) between the number and the
    word, and the Arabic-Indic digit five (U+0665), with a character
    database that knows both. *)
Example extract_years_of_experience_unicode :
  Parser.extract_years_of_experience Deployment.ucd
    (Utf8.encode [53; 160; 121; 101; 97; 114; 115]%N) = Ok (PyFloat.of_N 5) ∧
  Parser.extract_years_of_experience Deployment.ucd
    (Utf8.encode [1637; 32; 121; 101; 97; 114; 115]%N) = Ok (PyFloat.of_N 5) ∧
  Parser.extract_years_of_experience Deployment.ucd
    (Utf8.encode [53; 8364; 121; 101; 97; 114; 115]%N) = Ok PyFloat.zero.
Proof. repeat split; vm_compute; reflexivity. Qed.
(** * Further properties of the pipeline *)

(** ** More on floats *)

(** A number divided by itself is 1.0. *)
Lemma of_ratio_same p : PyFloat.of_ratio (Npos p) p = PyFloat.one.
Proof.
  unfold PyFloat.of_ratio, SFdiv_core_binary.
  replace (Zdigits2 (Z.pos p) + 0 - (Zdigits2 (Z.pos p) + 0))%Z with 0%Z by lia.
  change (Z.min (fexp PyFloat.prec PyFloat.emax 0) (0 - 0))%Z with (-53)%Z.
  change (0 - 0 - -53)%Z with 53%Z. cbv beta iota zeta.
  assert (Hd : Z.div_eucl (Z.shiftl (Z.pos p) 53) (Z.pos p) = ((2 ^ 53)%Z, 0%Z)).
  { rewrite Z.shiftl_mul_pow2 by lia. rewrite (Z.mul_comm (Z.pos p)).
    assert (He : ∀ a b, Z.div_eucl a b = ((a / b)%Z, (a mod b)%Z)).
    { intros a b. unfold Z.div, Z.modulo. by destruct (Z.div_eucl a b). }
    rewrite He, Z.div_mul, Z.mod_mul by lia. done. }
  rewrite Hd.
  assert (Hl : new_location (Z.pos p) 0 = loc_Exact).
  { unfold new_location, new_location_even, new_location_odd.
    by destruct (Z.even (Z.pos p)). }
  rewrite Hl. vm_compute. reflexivity.
Qed.

Lemma of_ratio_nat_same n :
  0 < n → PyFloat.of_ratio (N.of_nat n) (Pos.of_nat n) = PyFloat.one.
Proof.
  intros Hn. replace (N.of_nat n) with (Npos (Pos.of_nat n)) by lia.
  apply of_ratio_same.
Qed.

Lemma mul_positive_signed x y :
  (∃ m e, x = S754_finite false m e) →
  PyFloat.positive_signed y = true →
  PyFloat.positive_signed (PyFloat.mul x y) = true.
Proof.
  intros (m & e & ->) Hy.
  destruct y as [[]|[]| |[] m2 e2]; try done.
  unfold PyFloat.mul, SFmul. simpl xorb.
  by apply binary_round_aux_positive_signed.
Qed.

Lemma add_positive_signed x y :
  PyFloat.positive_signed x = true → PyFloat.positive_signed y = true →
  PyFloat.positive_signed (PyFloat.add x y) = true.
Proof.
  destruct x as [[]|[]| |[] m1 e1], y as [[]|[]| |[] m2 e2]; try done.
  intros _ _. unfold PyFloat.add, SFadd. cbv zeta. unfold cond_Zopp.
  destruct (shl_align m1 e1 (Z.min e1 e2)) as [a ea].
  destruct (shl_align m2 e2 (Z.min e1 e2)) as [b eb]. simpl fst.
  change (Z.pos a + Z.pos b)%Z with (Z.pos (a + b)).
  unfold binary_normalize, binary_round.
  destruct (shl_align _ _ _) as [mz ez].
  by apply binary_round_aux_positive_signed.
Qed.

(** ** More on [check_skill_coverage] *)

Lemma length_sorted_elements (X : gset string) :
  length (sorted (elements X)) = size X.
Proof. by rewrite sorted_length. Qed.

Lemma check_skill_coverage_total resume_skills jd_skills :
  ∃ c, Matcher.check_skill_coverage resume_skills jd_skills = Ok c.
Proof.
  destruct (decide (jd_skills = [])) as [->|Hne]; [by eexists|].
  rewrite check_skill_coverage_cons by done. by eexists.
Qed.

Lemma check_skill_coverage_subset (candidate required : list string) :
  (∀ x, x ∈ required → x ∈ candidate) →
  ∃ matched, Matcher.check_skill_coverage candidate required =
    Ok {| Matcher.matched_skills := matched;
          Matcher.missing_skills := [];
          Matcher.coverage_percentage := PyFloat.one |}.
Proof.
  intros H. destruct (decide (required = [])) as [->|Hne]; [by eexists|].
  rewrite check_skill_coverage_cons by done. cbv zeta.
  pose proof (size_list_to_set_pos required Hne) as Hpos.
  assert (list_to_set candidate ∩ list_to_set required
          = (list_to_set required : gset string)) as -> by set_solver.
  assert (list_to_set required ∖ list_to_set candidate
          = (∅ : gset string)) as -> by set_solver.
  rewrite length_sorted_elements, of_ratio_nat_same by done.
  rewrite elements_empty. by eexists.
Qed.

(** X5: a candidate who has every required skill is missing none and has
    the coverage 1.0 exactly. *)
Theorem check_skill_coverage_full (candidate required : list string) :
  (∀ x, x ∈ required → x ∈ candidate) →
  ∃ matched, Matcher.check_skill_coverage candidate required =
    Ok {| Matcher.matched_skills := matched;
          Matcher.missing_skills := [];
          Matcher.coverage_percentage := PyFloat.one |}.
Proof. apply check_skill_coverage_subset. Qed.

Lemma check_skill_coverage_full_witness :
  (∀ x, x ∈ ["java"; "aws"] → x ∈ ["aws"; "java"; "python"]) ∧
  ∃ matched, Matcher.check_skill_coverage ["aws"; "java"; "python"] ["java"; "aws"] =
    Ok {| Matcher.matched_skills := matched;
          Matcher.missing_skills := [];
          Matcher.coverage_percentage := PyFloat.one |}.
Proof.
  assert (H : ∀ x, x ∈ ["java"; "aws"] → x ∈ ["aws"; "java"; "python"])
    by set_solver.
  split; [exact H|].
  exact (check_skill_coverage_full ["aws"; "java"; "python"] ["java"; "aws"] H).
Defined.

(** X6: a candidate who has none of the required skills, of which there is
    one at least, matches none and has the coverage 0.0. *)
Theorem check_skill_coverage_none (candidate required : list string) :
  required ≠ [] →
  (∀ x, x ∈ required → x ∉ candidate) →
  ∃ missing, Matcher.check_skill_coverage candidate required =
    Ok {| Matcher.matched_skills := [];
          Matcher.missing_skills := missing;
          Matcher.coverage_percentage := PyFloat.zero |}.
Proof.
  intros Hne H. rewrite check_skill_coverage_cons by done. cbv zeta.
  assert (list_to_set candidate ∩ list_to_set required
          = (∅ : gset string)) as -> by set_solver.
  rewrite elements_empty. by eexists.
Qed.

Lemma check_skill_coverage_none_witness :
  ["java"; "aws"] ≠ [] ∧
  (∀ x, x ∈ ["java"; "aws"] → x ∉ ["python"]) ∧
  ∃ missing, Matcher.check_skill_coverage ["python"] ["java"; "aws"] =
    Ok {| Matcher.matched_skills := [];
          Matcher.missing_skills := missing;
          Matcher.coverage_percentage := PyFloat.zero |}.
Proof.
  assert (H : ∀ x, x ∈ ["java"; "aws"] → x ∉ ["python"]) by set_solver.
  split; [discriminate|]. split; [exact H|].
  exact (check_skill_coverage_none ["python"] ["java"; "aws"] ltac:(discriminate) H).
Defined.

(** X7: [check_skill_coverage] never raises; the matched and the missing
    skills together are the required skills, each once, so their numbers add
    up to the number of distinct required skills, and there are no more
    matched skills than distinct candidate skills. *)
Theorem check_skill_coverage_counts (candidate required : list string) :
  ∃ r, Matcher.check_skill_coverage candidate required = Ok r ∧
    Matcher.matched_skills r ++ Matcher.missing_skills r ≡ₚ remove_dups required ∧
    length (Matcher.matched_skills r) + length (Matcher.missing_skills r)
      = length (remove_dups required) ∧
    length (Matcher.matched_skills r) ≤ length (remove_dups candidate).
Proof.
  destruct (decide (required = [])) as [->|Hne].
  - eexists. split; [reflexivity|]. simpl. split_and!; [done|done|lia].
  - rewrite check_skill_coverage_cons by done. cbv zeta.
    eexists. split; [reflexivity|].
    cbn [Matcher.matched_skills Matcher.missing_skills].
    set (R := list_to_set candidate : gset string).
    set (J := list_to_set required : gset string).
    assert (Hperm : sorted (elements (R ∩ J)) ++ sorted (elements (J ∖ R))
                    ≡ₚ remove_dups required).
    { rewrite !sorted_Permutation. apply NoDup_Permutation.
      - apply NoDup_app. split_and!; [apply NoDup_elements| |apply NoDup_elements].
        intros x. rewrite !elem_of_elements. set_solver.
      - apply NoDup_remove_dups.
      - intros x. rewrite elem_of_app, !elem_of_elements, elem_of_remove_dups.
        unfold R, J. destruct (decide (x ∈ candidate)); set_solver. }
    split_and!; [done| |].
    + by rewrite <- length_app, Hperm.
    + rewrite sorted_length. apply submseteq_length, NoDup_submseteq;
        [apply NoDup_elements|].
      intros x. rewrite elem_of_elements, elem_of_remove_dups. set_solver.
Qed.

(** ** More on [calculate_final_score] *)

Lemma calculate_final_score_default s c :
  Matcher.calculate_final_score s c None =
  Ok {| Matcher.final_score :=
          PyFloat.add (PyFloat.mul (PyFloat.of_ratio 6 10) s)
                      (PyFloat.mul (PyFloat.of_ratio 4 10) c);
        Matcher.explanation :=
          "Score based on 60% semantic similarity (" +:+ Format.format_f 2 s
          +:+ ") and 40% skill coverage (" +:+ Format.format_f 2 c +:+ ")." |}.
Proof.
  rewrite calculate_final_score_None.
  rewrite (calculate_final_score_weights s c _ _ _
             default_weights_semantic default_weights_skill).
  destruct default_percentages as [-> ->]. reflexivity.
Qed.

Lemma calculate_final_score_skill_KeyError s c (weights : gmap string float) ws :
  weights !! "semantic" = Some ws →
  weights !! "skill" = None →
  Matcher.calculate_final_score s c (Some weights) = Raise (KeyError "skill").
Proof.
  intros Hs Hk. unfold Matcher.calculate_final_score, getitem.
  change (default Matcher.default_weights (Some weights)) with weights.
  rewrite Hs. cbn [mbind result_bind]. by rewrite Hk.
Qed.

(** X8: with the default weights, two scores that are not negative (and
    are numbers) give a final score that is a number and is not negative. *)
Theorem calculate_final_score_nonnegative (s c : float) :
  PyFloat.positive_signed s = true → PyFloat.positive_signed c = true →
  ∃ r, Matcher.calculate_final_score s c None = Ok r ∧
       PyFloat.positive_signed (Matcher.final_score r) = true ∧
       PyFloat.leb PyFloat.zero (Matcher.final_score r) = true.
Proof.
  intros Hs Hc. rewrite calculate_final_score_default.
  eexists. split; [reflexivity|]. cbn [Matcher.final_score].
  assert (H : PyFloat.positive_signed
    (PyFloat.add (PyFloat.mul (PyFloat.of_ratio 6 10) s)
                 (PyFloat.mul (PyFloat.of_ratio 4 10) c)) = true).
  { apply add_positive_signed; apply mul_positive_signed; try done;
      by eexists _, _. }
  split; [done|]. by apply leb_zero.
Qed.

Lemma calculate_final_score_nonnegative_witness :
  PyFloat.positive_signed (PyFloat.of_ratio 1 2) = true ∧
  PyFloat.positive_signed PyFloat.one = true ∧
  ∃ r, Matcher.calculate_final_score (PyFloat.of_ratio 1 2) PyFloat.one None = Ok r ∧
       PyFloat.positive_signed (Matcher.final_score r) = true ∧
       PyFloat.leb PyFloat.zero (Matcher.final_score r) = true.
Proof.
  split; [reflexivity|]. split; [reflexivity|].
  exact (calculate_final_score_nonnegative (PyFloat.of_ratio 1 2) PyFloat.one
           eq_refl eq_refl).
Defined.

(** X9: with weights of the caller the score is computed exactly when both
    keys "semantic" and "skill" are present; the first missing key is
    reported by a [KeyError]; any other key is ignored, and the weights are
    not checked otherwise. *)
Theorem calculate_final_score_weight_keys (s c : float)
    (weights : gmap string float) :
  let run w := Matcher.calculate_final_score s c (Some w) in
  ((∃ r, run weights = Ok r) ↔
     is_Some (weights !! "semantic") ∧ is_Some (weights !! "skill")) ∧
  (run weights = Raise (KeyError "semantic") ↔ weights !! "semantic" = None) ∧
  (run weights = Raise (KeyError "skill") ↔
     is_Some (weights !! "semantic") ∧ weights !! "skill" = None) ∧
  (∀ k v, k ≠ "semantic" → k ≠ "skill" → run (<[k := v]> weights) = run weights).
Proof.
  cbv zeta. split_and!.
  - destruct (weights !! "semantic") as [ws|] eqn:Hs.
    + destruct (weights !! "skill") as [wk|] eqn:Hk.
      * rewrite (calculate_final_score_weights s c _ _ _ Hs Hk).
        split; [by eauto|]. intros _. by eexists.
      * rewrite (calculate_final_score_skill_KeyError s c _ _ Hs Hk).
        split; [by intros [r ?]|]. by intros [_ [? ?]].
    + rewrite (calculate_final_score_KeyError s c _ Hs).
      split; [by intros [r ?]|]. by intros [[? ?] _].
  - destruct (weights !! "semantic") as [ws|] eqn:Hs.
    + destruct (weights !! "skill") as [wk|] eqn:Hk.
      * by rewrite (calculate_final_score_weights s c _ _ _ Hs Hk).
      * by rewrite (calculate_final_score_skill_KeyError s c _ _ Hs Hk).
    + by rewrite (calculate_final_score_KeyError s c _ Hs).
  - destruct (weights !! "semantic") as [ws|] eqn:Hs.
    + destruct (weights !! "skill") as [wk|] eqn:Hk.
      * rewrite (calculate_final_score_weights s c _ _ _ Hs Hk).
        split; [done|]. by intros [_ ?].
      * rewrite (calculate_final_score_skill_KeyError s c _ _ Hs Hk).
        split; [|done]. intros _. split; [by eauto|done].
    + rewrite (calculate_final_score_KeyError s c _ Hs).
      split; [done|]. by intros [[? ?] _].
  - intros k v H1 H2. unfold Matcher.calculate_final_score, getitem.
    change (default Matcher.default_weights (Some (<[k:=v]> weights)))
      with (<[k:=v]> weights).
    change (default Matcher.default_weights (Some weights)) with weights.
    by rewrite !lookup_insert_ne.
Qed.

(** ** More on [calculate_semantic_similarity] *)

(** X10: [calculate_semantic_similarity] raises nothing. Either the
    model is loaded and the library computes the similarity, which is
    returned with nothing printed; or the result is 0.0 and exactly one
    line is printed, which names the first exception of the library when
    the model is loaded. *)
Theorem calculate_semantic_similarity_outcome
    {SentenceTransformer embedding : Type}
    (encode : SentenceTransformer → string → result embedding)
    (cos_sim : embedding → embedding → result float)
    (model : option SentenceTransformer) (text1 text2 : string) :
  let r := Matcher.calculate_semantic_similarity encode cos_sim model text1 text2 in
  (r.2 = [] ∧
   ∃ m e1 e2, model = Some m ∧ encode m text1 = Ok e1 ∧
     encode m text2 = Ok e2 ∧ cos_sim e1 e2 = Ok r.1) ∨
  (r.1 = PyFloat.zero ∧
   (r.2 = ["Model is not loaded. Returning 0.0"] ∧ model = None ∨
    ∃ m e, model = Some m ∧
      r.2 = ["Error calculating similarity: " +:+ str_exn e] ∧
      (encode m text1 = Raise e ∨
       (∃ e1, encode m text1 = Ok e1 ∧
          (encode m text2 = Raise e ∨
           ∃ e2, encode m text2 = Ok e2 ∧ cos_sim e1 e2 = Raise e))))).
Proof.
  unfold Matcher.calculate_semantic_similarity.
  destruct model as [m|]; [|right; split; [done|by left]].
  destruct (encode m text1) as [e1|e] eqn:H1; cbn [mbind result_bind].
  - destruct (encode m text2) as [e2|e] eqn:H2; cbn [mbind result_bind].
    + destruct (cos_sim e1 e2) as [v|e] eqn:H3.
      * left. split; [done|]. by exists m, e1, e2.
      * right. split; [done|]. right. exists m, e. split_and!; try done.
        right. exists e1. split; [done|]. right. by exists e2.
    + right. split; [done|]. right. exists m, e. split_and!; try done.
      right. exists e1. split; [done|]. by left.
  - right. split; [done|]. right. exists m, e. split_and!; try done. by left.
Qed.

(** ** More on [parse_resume] *)

Section MoreParseFacts.
Variable ucd : unicode.
Variable fuzz : gmap string Parser.scorer.
Variable extract_text docx2txt_process : string → result string.
Hypothesis no_attribute : fuzz !! "PARTIAL_RATIO" = None.

Lemma parse_text_outcome text :
  Parser.parse_text ucd fuzz text =
  if String.eqb text "" then no_text else Raise (AttributeError no_PARTIAL_RATIO).
Proof.
  unfold Parser.parse_text. destruct (String.eqb text ""); [done|].
  by rewrite extract_skills_no_attribute.
Qed.

Lemma parse_resume_cases path :
  let r := Parser.parse_resume ucd fuzz extract_text docx2txt_process path in
  (r = (Ok (Parser.ParseError "Unsupported file type"), []) ∧
   endswith path ".pdf" = false ∧ endswith path ".docx" = false)
  ∨
  (r.1 = Ok (Parser.ParseError "Could not read text from file") ∧
   ((endswith path ".pdf" = true ∧
       ((∃ e, extract_text path = Raise e ∧
              r.2 = ["Error reading PDF " +:+ path +:+ ": " +:+ str_exn e]) ∨
        (∃ raw, extract_text path = Ok raw ∧ lower ucd raw = "" ∧ r.2 = []))) ∨
    (endswith path ".pdf" = false ∧ endswith path ".docx" = true ∧
       ((∃ e, docx2txt_process path = Raise e ∧
              r.2 = ["Error reading DOCX " +:+ path +:+ ": " +:+ str_exn e]) ∨
        (∃ raw, docx2txt_process path = Ok raw ∧ lower ucd raw = "" ∧ r.2 = [])))))
  ∨
  (r = (Raise (AttributeError
          "module 'rapidfuzz.fuzz' has no attribute 'PARTIAL_RATIO'"), []) ∧
   ∃ raw, lower ucd raw ≠ "" ∧
     (endswith path ".pdf" = true ∧ extract_text path = Ok raw ∨
      endswith path ".pdf" = false ∧ endswith path ".docx" = true ∧
        docx2txt_process path = Ok raw)).
Proof.
  unfold Parser.parse_resume.
  destruct (endswith path ".pdf") eqn:Hp.
  - unfold Parser.extract_text_from_pdf.
    destruct (extract_text path) as [raw|e] eqn:He; cbn.
    + rewrite parse_text_outcome.
      destruct (String.eqb_spec (lower ucd raw) "") as [Hl|Hl].
      * right. left. split; [done|]. left. split; [done|]. right. by exists raw.
      * right. right. split; [done|]. exists raw. split; [done|]. by left.
    + right. left. split; [done|]. left. split; [done|]. left. by exists e.
  - destruct (endswith path ".docx") eqn:Hd.
    + unfold Parser.extract_text_from_docx.
      destruct (docx2txt_process path) as [raw|e] eqn:He; cbn.
      * rewrite parse_text_outcome.
        destruct (String.eqb_spec (lower ucd raw) "") as [Hl|Hl].
        -- right. left. split; [done|]. right. split_and!; [done..|].
           right. by exists raw.
        -- right. right. split; [done|]. exists raw. split; [done|]. by right.
      * right. left. split; [done|]. right. split_and!; [done..|].
        left. by exists e.
    + by left.
Qed.

(** Three outcomes, and no other. *)
Lemma parse_resume_results path :
  let r := (Parser.parse_resume ucd fuzz extract_text docx2txt_process path).1 in
  (∃ msg, r = Ok (Parser.ParseError msg)) ∨
  r = Raise (AttributeError no_PARTIAL_RATIO).
Proof.
  destruct (parse_resume_cases path) as [[H _]|[[H _]|[H _]]]; cbv zeta in *.
  - rewrite H. left. by eexists.
  - left. by eexists.
  - rewrite H. by right.
Qed.

End MoreParseFacts.

(** X11: [parse_resume] returns no parsed resume. With the module
    [rapidfuzz.fuzz] as it is, without the attribute [PARTIAL_RATIO], the
    outcome is one of three: the error "Unsupported file type", nothing
    printed, for a path that ends neither in ".pdf" nor in ".docx"; the
    error "Could not read text from file" for a path of a supported type
    whose reader raised, the exception printed, or returned a text whose
    lower-case form is empty; and an [AttributeError] for a path of a
    supported type whose reader returned any other text. *)
Theorem parse_resume_outcome
    (ucd : unicode) (fuzz : gmap string Parser.scorer)
    (extract_text docx2txt_process : string → result string) (path : string) :
  fuzz !! "PARTIAL_RATIO" = None →
  let r := Parser.parse_resume ucd fuzz extract_text docx2txt_process path in
  (r = (Ok (Parser.ParseError "Unsupported file type"), []) ∧
   endswith path ".pdf" = false ∧ endswith path ".docx" = false)
  ∨
  (r.1 = Ok (Parser.ParseError "Could not read text from file") ∧
   ((endswith path ".pdf" = true ∧
       ((∃ e, extract_text path = Raise e ∧
              r.2 = ["Error reading PDF " +:+ path +:+ ": " +:+ str_exn e]) ∨
        (∃ raw, extract_text path = Ok raw ∧ lower ucd raw = "" ∧ r.2 = []))) ∨
    (endswith path ".pdf" = false ∧ endswith path ".docx" = true ∧
       ((∃ e, docx2txt_process path = Raise e ∧
              r.2 = ["Error reading DOCX " +:+ path +:+ ": " +:+ str_exn e]) ∨
        (∃ raw, docx2txt_process path = Ok raw ∧ lower ucd raw = "" ∧ r.2 = [])))))
  ∨
  (r = (Raise (AttributeError
          "module 'rapidfuzz.fuzz' has no attribute 'PARTIAL_RATIO'"), []) ∧
   ∃ raw, lower ucd raw ≠ "" ∧
     (endswith path ".pdf" = true ∧ extract_text path = Ok raw ∨
      endswith path ".pdf" = false ∧ endswith path ".docx" = true ∧
        docx2txt_process path = Ok raw)).
Proof. intros H. by apply parse_resume_cases. Qed.

Lemma parse_resume_outcome_witness :
  Deployment.fuzz !! "PARTIAL_RATIO" = None ∧
  ∃ r, r = Parser.parse_resume Deployment.ucd Deployment.fuzz
             Deployment.extract_text Deployment.docx2txt_process "resume.pdf" ∧
       ((r = (Ok (Parser.ParseError "Unsupported file type"), []) ∧
         endswith "resume.pdf" ".pdf" = false ∧ endswith "resume.pdf" ".docx" = false)
        ∨ r.1 = Ok (Parser.ParseError "Could not read text from file")
        ∨ r = (Raise (AttributeError
                 "module 'rapidfuzz.fuzz' has no attribute 'PARTIAL_RATIO'"), [])).
Proof.
  assert (H : Deployment.fuzz !! "PARTIAL_RATIO" = None) by (vm_compute; reflexivity).
  split; [exact H|]. eexists. split; [reflexivity|].
  destruct (parse_resume_outcome Deployment.ucd Deployment.fuzz
              Deployment.extract_text Deployment.docx2txt_process "resume.pdf" H)
    as [H1|[[H2 _]|[H3 _]]].
  - left. exact H1.
  - right. left. exact H2.
  - right. right. exact H3.
Defined.

(** ** More on [rank_resume] *)

Section MoreEndpointFacts.
Context {SentenceTransformer embedding : Type}.
Variable encode : SentenceTransformer → string → result embedding.
Variable cos_sim : embedding → embedding → result float.
Variable ucd : unicode.
Variable fuzz : gmap string Parser.scorer.
Variable extract_text docx2txt_process : string → result string.
Variable save_temporary_file : Main.UploadFile → result string.
Hypothesis no_attribute : fuzz !! "PARTIAL_RATIO" = None.

Local Abbreviation rank := (Main.rank_resume encode cos_sim ucd fuzz
  extract_text docx2txt_process save_temporary_file).
Local Abbreviation parse := (Parser.parse_resume ucd fuzz extract_text
  docx2txt_process).

(** The response for a resume that does not parse. *)
Lemma rank_resume_parse_error m job_description resume_file path msg :
  save_temporary_file resume_file = Ok path →
  (parse path).1 = Ok (Parser.ParseError msg) →
  (rank (Some m) job_description resume_file).1 =
  Raise (HTTPException 500
    ("An unexpected error occurred: 400: Error parsing resume: " +:+ msg)).
Proof.
  intros Hs Hp. unfold Main.rank_resume. rewrite Hs. unfold Main.score_resume.
  destruct (parse path) as [d out]. simpl in Hp. subst d. reflexivity.
Qed.

(** The response when parsing raises. *)
Lemma rank_resume_parse_raise m job_description resume_file path e :
  save_temporary_file resume_file = Ok path →
  (parse path).1 = Raise e →
  (rank (Some m) job_description resume_file).1 =
  Raise (HTTPException 500 ("An unexpected error occurred: " +:+ str_exn e)).
Proof.
  intros Hs Hp. unfold Main.rank_resume. rewrite Hs. unfold Main.score_resume.
  destruct (parse path) as [d out]. simpl in Hp. subst d. reflexivity.
Qed.

Lemma rank_resume_errors MODEL job_description resume_file :
  ∃ detail,
    (rank MODEL job_description resume_file).1 = Raise (HTTPException 500 detail) ∧
    (detail = "ML Model is not loaded. Cannot process request." ∧ MODEL = None ∨
     (∃ e, MODEL ≠ None ∧ save_temporary_file resume_file = Raise e ∧
        detail = "Error saving temporary file: " +:+ str_exn e) ∨
     (∃ path msg, MODEL ≠ None ∧ save_temporary_file resume_file = Ok path ∧
        (parse path).1 = Ok (Parser.ParseError msg) ∧
        detail = "An unexpected error occurred: 400: Error parsing resume: " +:+ msg) ∨
     (∃ path, MODEL ≠ None ∧ save_temporary_file resume_file = Ok path ∧
        (parse path).1 = Raise (AttributeError
          "module 'rapidfuzz.fuzz' has no attribute 'PARTIAL_RATIO'") ∧
        detail = "An unexpected error occurred: module 'rapidfuzz.fuzz' has no attribute 'PARTIAL_RATIO'")).
Proof.
  destruct MODEL as [m|].
  - destruct (save_temporary_file resume_file) as [path|e'] eqn:Hs.
    + destruct (parse_resume_results ucd fuzz extract_text docx2txt_process
                  no_attribute path) as [[msg Hd]|Hd]; cbv zeta in Hd.
      * rewrite (rank_resume_parse_error m _ _ _ _ Hs Hd).
        eexists. split; [done|]. right. right. left. by exists path, msg.
      * rewrite (rank_resume_parse_raise m _ _ _ _ Hs Hd).
        eexists. split; [done|]. right. right. right. by exists path.
    + unfold Main.rank_resume. rewrite Hs.
      eexists. split; [done|]. right. left. by exists e'.
  - eexists. split; [done|]. by left.
Qed.

End MoreEndpointFacts.

(** X13: no request is answered with a result. With the module
    [rapidfuzz.fuzz] as it is, [rank_resume] raises an [HTTPException] with
    the status 500, never 400, on every request: the model is not loaded; or
    the upload could not be saved; or the resume did not parse, in which
    case the detail quotes the status 400 the endpoint had raised inside its
    [try]; or the resume was read and [extract_skills] raised its
    [AttributeError]. *)
Theorem rank_resume_error_status
    {SentenceTransformer embedding : Type}
    (encode : SentenceTransformer → string → result embedding)
    (cos_sim : embedding → embedding → result float)
    (ucd : unicode) (fuzz : gmap string Parser.scorer)
    (extract_text docx2txt_process : string → result string)
    (save_temporary_file : Main.UploadFile → result string)
    (MODEL : option SentenceTransformer) (job_description : string)
    (resume_file : Main.UploadFile) :
  fuzz !! "PARTIAL_RATIO" = None →
  ∃ detail,
    (Main.rank_resume encode cos_sim ucd fuzz extract_text docx2txt_process
       save_temporary_file MODEL job_description resume_file).1
    = Raise (HTTPException 500 detail) ∧
    (detail = "ML Model is not loaded. Cannot process request." ∧ MODEL = None ∨
     (∃ e, MODEL ≠ None ∧ save_temporary_file resume_file = Raise e ∧
        detail = "Error saving temporary file: " +:+ str_exn e) ∨
     (∃ path msg, MODEL ≠ None ∧ save_temporary_file resume_file = Ok path ∧
        (Parser.parse_resume ucd fuzz extract_text docx2txt_process path).1
          = Ok (Parser.ParseError msg) ∧
        detail = "An unexpected error occurred: 400: Error parsing resume: " +:+ msg) ∨
     (∃ path, MODEL ≠ None ∧ save_temporary_file resume_file = Ok path ∧
        (Parser.parse_resume ucd fuzz extract_text docx2txt_process path).1
          = Raise (AttributeError
              "module 'rapidfuzz.fuzz' has no attribute 'PARTIAL_RATIO'") ∧
        detail = "An unexpected error occurred: module 'rapidfuzz.fuzz' has no attribute 'PARTIAL_RATIO'")).
Proof. intros H. by apply rank_resume_errors. Qed.

Lemma rank_resume_error_status_witness :
  Deployment.fuzz !! "PARTIAL_RATIO" = None ∧
  ∃ detail,
    (Deployment.rank_resume (Some tt) "Python and SQL" Deployment.resume).1
    = Raise (HTTPException 500 detail).
Proof.
  assert (H : Deployment.fuzz !! "PARTIAL_RATIO" = None) by (vm_compute; reflexivity).
  split; [exact H|].
  destruct (rank_resume_error_status Deployment.encode Deployment.cos_sim
              Deployment.ucd Deployment.fuzz Deployment.extract_text
              Deployment.docx2txt_process Deployment.save_temporary_file
              (Some tt) "Python and SQL" Deployment.resume H) as (detail & Hd & _).
  exists detail. exact Hd.
Defined.

(** ** More on [extract_years_of_experience] *)

Section MoreExperienceFacts.
Variable ucd : unicode.

Lemma tail_yrs_years t :
  Re.atoms_lang ucd (Re.tail Parser.pattern_yrs) t →
  Re.atoms_lang ucd (Re.tail Parser.pattern_years) t.
Proof.
  intros (w1 & r1 & -> & H1 & w2 & r2 & -> & H2 & w3 & r3 & -> & H3 &
          w4 & r4 & -> & H4 & w5 & r5 & -> & H5 & w6 & r6 & -> & H6 & ->).
  exists w1, (w2 ++ w3 ++ w4 ++ w5 ++ w6 ++ []). split_and!; [done..|].
  exists w2, (w3 ++ w4 ++ w5 ++ w6 ++ []). split_and!; [done..|].
  exists w3, (w4 ++ w5 ++ w6 ++ []). split_and!; [done..|].
  exists w4, (w5 ++ w6 ++ []). split_and!; [done..|].
  exists [], (w5 ++ w6 ++ []). split_and!; [done|by left|].
  exists [], (w5 ++ w6 ++ []). split_and!; [done|by left|].
  exists w5, (w6 ++ []). split_and!; [done..|].
  by exists w6, [].
Qed.

Lemma occurs_yrs_years text :
  Re.occurs ucd Parser.pattern_yrs text → Re.occurs ucd Parser.pattern_years text.
Proof.
  intros (pre & g & t & post & -> & Hg & Ht).
  exists pre, g, t, post. split_and!; [done..|]. by apply tail_yrs_years.
Qed.

Lemma number_group_digit g :
  Re.atoms_lang ucd Parser.number_group g → existsb (Re.is_digit ucd) g = true.
Proof.
  intros (w1 & r1 & -> & [Hne H1] & _).
  destruct w1 as [|c w1]; [done|].
  simpl in H1. apply andb_true_iff in H1 as [Hc _].
  simpl. by rewrite Hc.
Qed.

Lemma tail_years_letters t :
  Re.atoms_lang ucd (Re.tail Parser.pattern_years) t →
  existsb (N.eqb (N_of_ascii "y")) t = true ∧
  existsb (N.eqb (N_of_ascii "r")) t = true.
Proof.
  intros (w1 & r1 & -> & H1 & w2 & r2 & -> & H2 & w3 & r3 & -> & H3 &
          w4 & r4 & -> & (cy & -> & Hy) & w5 & r5 & -> & H5 & w6 & r6 & -> & H6 &
          w7 & r7 & -> & (cr & -> & Hr) & _).
  simpl in Hy, Hr. apply N.eqb_eq in Hy, Hr. subst cy cr.
  rewrite !existsb_app. split.
  - change (existsb (N.eqb (N_of_ascii "y")) [N_of_ascii "y"]) with true.
    by rewrite !orb_true_r.
  - change (existsb (N.eqb (N_of_ascii "r")) [N_of_ascii "r"]) with true.
    by rewrite ?orb_true_r, ?orb_true_l.
Qed.

Lemma occurs_years_chars text :
  Re.occurs ucd Parser.pattern_years text →
  existsb (Re.is_digit ucd) text = true ∧
  existsb (N.eqb (N_of_ascii "y")) text = true ∧
  existsb (N.eqb (N_of_ascii "r")) text = true.
Proof.
  intros (pre & g & t & post & -> & Hg & Ht).
  apply number_group_digit in Hg. apply tail_years_letters in Ht as [Hy Hr].
  rewrite !existsb_app, Hg, Hy, Hr. by rewrite !orb_true_r.
Qed.

Lemma extract_years_without_captures text :
  Re.findall ucd Parser.pattern_years (Utf8.decode text) = [] →
  Re.findall ucd Parser.pattern_yrs (Utf8.decode text) = [] ∧
  Parser.extract_years_of_experience ucd text = Ok PyFloat.zero.
Proof.
  intros H1.
  assert (H2 : Re.findall ucd Parser.pattern_yrs (Utf8.decode text) = []).
  { apply findall_nil_iff; [done|]. intros Ho%occurs_yrs_years.
    by apply (findall_nil_iff ucd Parser.pattern_years _ eq_refl) in H1. }
  split; [done|].
  unfold Parser.extract_years_of_experience, Parser.found_years_of, Parser.patterns.
  cbn [fold_left]. by rewrite H1, H2.
Qed.

Lemma extract_years_without_chars text :
  has_char (Re.is_digit ucd) text = false ∨
  has_char (N.eqb (N_of_ascii "y")) text = false ∨
  has_char (N.eqb (N_of_ascii "r")) text = false →
  Parser.extract_years_of_experience ucd text = Ok PyFloat.zero.
Proof.
  unfold has_char. intros H. apply extract_years_without_captures.
  apply findall_nil_iff; [done|]. intros (Hd & Hy & Hr)%occurs_years_chars.
  destruct H as [H|[H|H]]; congruence.
Qed.

End MoreExperienceFacts.

(** X17: the second pattern finds nothing where the first finds nothing:
    a text without a capture of the first pattern has no capture at all and
    the experience 0.0. *)
Theorem extract_years_of_experience_first_pattern (ucd : unicode) (text : string) :
  Re.findall ucd Parser.pattern_years (Utf8.decode text) = [] →
  Re.findall ucd Parser.pattern_yrs (Utf8.decode text) = [] ∧
  Parser.extract_years_of_experience ucd text = Ok PyFloat.zero.
Proof. apply extract_years_without_captures. Qed.

Lemma extract_years_of_experience_first_pattern_witness :
  let text := "ten years, 5 YEARS, 3 months" in
  Re.findall Deployment.ucd Parser.pattern_years (Utf8.decode text) = [] ∧
  Re.findall Deployment.ucd Parser.pattern_yrs (Utf8.decode text) = [] ∧
  Parser.extract_years_of_experience Deployment.ucd text = Ok PyFloat.zero.
Proof.
  cbv zeta.
  assert (H : Re.findall Deployment.ucd Parser.pattern_years
                (Utf8.decode "ten years, 5 YEARS, 3 months") = [])
    by (vm_compute; reflexivity).
  split; [exact H|].
  exact (extract_years_of_experience_first_pattern Deployment.ucd _ H).
Defined.

(** X18: a text without a decimal digit of Unicode, or without the letter
    y, or without the letter r, has the experience 0.0. *)
Theorem extract_years_of_experience_needs_chars (ucd : unicode) (text : string) :
  has_char (Re.is_digit ucd) text = false ∨
  has_char (N.eqb (N_of_ascii "y")) text = false ∨
  has_char (N.eqb (N_of_ascii "r")) text = false →
  Parser.extract_years_of_experience ucd text = Ok PyFloat.zero.
Proof. apply extract_years_without_chars. Qed.

Lemma extract_years_of_experience_needs_chars_witness :
  let text := "seven years in backend systems" in
  (has_char (Re.is_digit Deployment.ucd) text = false ∨
   has_char (N.eqb (N_of_ascii "y")) text = false ∨
   has_char (N.eqb (N_of_ascii "r")) text = false) ∧
  Parser.extract_years_of_experience Deployment.ucd text = Ok PyFloat.zero.
Proof.
  cbv zeta.
  assert (H : has_char (Re.is_digit Deployment.ucd) "seven years in backend systems" = false ∨
   has_char (N.eqb (N_of_ascii "y")) "seven years in backend systems" = false ∨
   has_char (N.eqb (N_of_ascii "r")) "seven years in backend systems" = false)
    by (left; vm_compute; reflexivity).
  split; [exact H|].
  exact (extract_years_of_experience_needs_chars Deployment.ucd _ H).
Defined.
